(** * students-viz: Controller and Chart of the student-growth visualisation

    A shallow embedding of [src/assets/js/partials/controller.js] (class
    [Controller]) and of the class [Chart] that follows it in the same
    source text, together with the properties that the specification states
    about them.

    JavaScript objects that the code mutates in place (the chart, the map,
    the document) are components of an explicit state that every operation
    takes and returns.  A method that ends in [return this] returns the
    marker [RetThis]: the caller goes on with the receiver it already holds. *)

From Stdlib Require Import ZArith QArith String Ascii List Bool Lia.
From stdpp Require Import base option list strings gmap pretty.

Local Open Scope string_scope.
Local Open Scope Z_scope.

(** ** JavaScript values *)

Module JS.

(** The values that flow through the accessors and the filter controls. *)
Inductive JSVal : Type :=
| VUndefined
| VNull
| VString (s : string)
| VArray (l : list string).

#[global] Instance JSVal_eq_dec : EqDecision JSVal.
Proof. solve_decision. Defined.

(** [a === b] on the values above.  Two array values are never the same
    object in this program: the only array is the [[]] of the constructor. *)
Definition strict_eq (a b : JSVal) : bool :=
  match a, b with
  | VUndefined, VUndefined => true
  | VNull, VNull => true
  | VString s, VString t => String.eqb s t
  | _, _ => false
  end.

Fixpoint join (sep : string) (l : list string) : string :=
  match l with
  | [] => ""
  | [x] => x
  | x :: r => x +:+ sep +:+ join sep r
  end.

(** ToString, as applied by a template literal to an interpolated value. *)
Definition to_string (v : JSVal) : string :=
  match v with
  | VUndefined => "undefined"
  | VNull => "null"
  | VString s => s
  | VArray l => join "," l
  end.

(** What a method call evaluates to: a value, or the receiver itself. *)
Inductive Ret : Type :=
| RetVal (v : JSVal)
| RetThis.

(** The first formal parameter of a call with the given actual arguments. *)
Definition arg0 (args : list JSVal) : JSVal :=
  match args with
  | [] => VUndefined
  | v :: _ => v
  end.

End JS.
Import JS.

(** ** The part of the document that the chart draws into *)

Module Svg.

Inductive AttrVal : Type :=
| AttrNum (q : Q)
| AttrStr (s : string).

(** An element: nodes are addressed by their position in [nodes]; an
    element of the host page has no parent in the model. *)
Record Node : Type := mkNode {
  tag : string;
  parent : option nat;
  attrs : list (string * AttrVal);
  styles : list (string * string);
  text : string
}.

(** [container] is the element that [Global.CHART_SELECTOR] matches in the
    host page, if there is one. *)
Record Dom : Type := mkDom {
  container : option nat;
  nodes : list Node
}.

(** A d3 selection of at most one element; [None] is the empty selection,
    which is an object all the same (it is not [null]). *)
Definition Selection : Type := option nat.

(** [d3.select(Global.CHART_SELECTOR)] *)
Definition select (d : Dom) : Selection := container d.

(** [selection.append(tag)] followed by [.attrs(..)] and [.style(..)]:
    appending to the empty selection gives the empty selection again and
    leaves the document alone. *)
Definition append (sel : Selection) (t : string)
    (a : list (string * AttrVal)) (s : list (string * string))
    (d : Dom) : Selection * Dom :=
  match sel with
  | None => (None, d)
  | Some p =>
      (Some (length (nodes d)),
       mkDom (container d) (nodes d ++ [mkNode t (Some p) a s ""]))
  end.

(** [selection.text(value)]: [null] and [undefined] clear the text. *)
Definition text_of (v : JSVal) : string :=
  match v with
  | VUndefined | VNull => ""
  | _ => to_string v
  end.

Definition set_text (sel : Selection) (txt : string) (d : Dom) : Dom :=
  match sel with
  | None => d
  | Some i =>
      mkDom (container d)
            (alter (fun n => mkNode (tag n) (parent n) (attrs n) (styles n) txt)
                   i (nodes d))
  end.

End Svg.
Import Svg.

(** ** Chart *)

Module Chart.

Record Margin : Type := mkMargin {
  top : Z; right : Z; bottom : Z; left : Z
}.

(** [d3.scalePoint().range([0, w])] with its domain. *)
Record PointScale : Type := mkPointScale {
  ps_range : Z * Z;
  ps_domain : list JSVal
}.

(** [d3.scaleLinear().domain([lo, hi]).rangeRound([h, 0])]; a bound is
    [None] where [d3.min] or [d3.max] gave [undefined]. *)
Record LinearScale : Type := mkLinearScale {
  ls_domain : option Q * option Q;
  ls_range : Z * Z
}.

(** [d3.axisLeft().ticks(6)], with the scale given to it last. *)
Record LeftAxis : Type := mkLeftAxis {
  la_ticks : Z;
  la_scale : option LinearScale
}.

(** The line generator of [defineSettings]: it reads [_x] and [_y] of the
    chart at the time it is applied, so it carries no data of its own. *)
Inductive LineGenerator : Type := LineOfChart.

(** The fields the constructor declares.  [_xAxis] holds the scale object
    given to [d3.axisBottom]: the one of the render that created the axis. *)
Record t : Type := mk {
  _chart : list (string * JSVal);
  _w : Z;
  _h : Z;
  _margin : Margin;
  _width : Z;
  _height : Z;
  _data : JSVal;
  _key_x : JSVal;
  _key_y : JSVal;
  _svg : option Selection;
  _title : option Selection;
  _subtitle : option Selection;
  _path : option Selection;
  _line : option LineGenerator;
  _g : option Selection;
  _gX : option Selection;
  _gY : option Selection;
  _x : option PointScale;
  _y : option LinearScale;
  _xAxis : option PointScale;
  _yAxis : option LeftAxis
}.

(** [new Chart()] *)
Definition new : t :=
  let w := 700 in
  let h := 500 in
  let m := mkMargin 50 30 120 80 in
  {| _chart := [];
     _w := w;
     _h := h;
     _margin := m;
     _width := w - left m - right m;
     _height := h - top m - bottom m;
     _data := VArray [];
     _key_x := VNull;
     _key_y := VNull;
     _svg := None;
     _title := None;
     _subtitle := None;
     _path := None;
     _line := None;
     _g := None;
     _gX := None;
     _gY := None;
     _x := None;
     _y := None;
     _xAxis := None;
     _yAxis := None |}.

(** Assignments to single fields. *)
Definition set_data (v : JSVal) (c : t) : t :=
  mk (_chart c) (_w c) (_h c) (_margin c) (_width c) (_height c)
     v (_key_x c) (_key_y c)
     (_svg c) (_title c) (_subtitle c) (_path c) (_line c) (_g c) (_gX c) (_gY c)
     (_x c) (_y c) (_xAxis c) (_yAxis c).

Definition set_key_x (v : JSVal) (c : t) : t :=
  mk (_chart c) (_w c) (_h c) (_margin c) (_width c) (_height c)
     (_data c) v (_key_y c)
     (_svg c) (_title c) (_subtitle c) (_path c) (_line c) (_g c) (_gX c) (_gY c)
     (_x c) (_y c) (_xAxis c) (_yAxis c).

Definition set_key_y (v : JSVal) (c : t) : t :=
  mk (_chart c) (_w c) (_h c) (_margin c) (_width c) (_height c)
     (_data c) (_key_x c) v
     (_svg c) (_title c) (_subtitle c) (_path c) (_line c) (_g c) (_gX c) (_gY c)
     (_x c) (_y c) (_xAxis c) (_yAxis c).

(** The eight references that [init] and [defineSettings] fill in. *)
Definition set_elements
    (svg title subtitle path : option Selection) (line : option LineGenerator)
    (g gX gY : option Selection) (c : t) : t :=
  mk (_chart c) (_w c) (_h c) (_margin c) (_width c) (_height c)
     (_data c) (_key_x c) (_key_y c)
     svg title subtitle path line g gX gY
     (_x c) (_y c) (_xAxis c) (_yAxis c).

Definition set_svg (s : Selection) (c : t) : t :=
  set_elements (Some s) (_title c) (_subtitle c) (_path c) (_line c)
               (_g c) (_gX c) (_gY c) c.
Definition set_title (s : Selection) (c : t) : t :=
  set_elements (_svg c) (Some s) (_subtitle c) (_path c) (_line c)
               (_g c) (_gX c) (_gY c) c.
Definition set_subtitle (s : Selection) (c : t) : t :=
  set_elements (_svg c) (_title c) (Some s) (_path c) (_line c)
               (_g c) (_gX c) (_gY c) c.
Definition set_path (s : Selection) (c : t) : t :=
  set_elements (_svg c) (_title c) (_subtitle c) (Some s) (_line c)
               (_g c) (_gX c) (_gY c) c.
Definition set_line (l : LineGenerator) (c : t) : t :=
  set_elements (_svg c) (_title c) (_subtitle c) (_path c) (Some l)
               (_g c) (_gX c) (_gY c) c.
Definition set_g (s : Selection) (c : t) : t :=
  set_elements (_svg c) (_title c) (_subtitle c) (_path c) (_line c)
               (Some s) (_gX c) (_gY c) c.
Definition set_gX (s : Selection) (c : t) : t :=
  set_elements (_svg c) (_title c) (_subtitle c) (_path c) (_line c)
               (_g c) (Some s) (_gY c) c.
Definition set_gY (s : Selection) (c : t) : t :=
  set_elements (_svg c) (_title c) (_subtitle c) (_path c) (_line c)
               (_g c) (_gX c) (Some s) c.

Definition set_scales
    (x : option PointScale) (y : option LinearScale)
    (xAxis : option PointScale) (yAxis : option LeftAxis) (c : t) : t :=
  mk (_chart c) (_w c) (_h c) (_margin c) (_width c) (_height c)
     (_data c) (_key_x c) (_key_y c)
     (_svg c) (_title c) (_subtitle c) (_path c) (_line c) (_g c) (_gX c) (_gY c)
     x y xAxis yAxis.

(** *** Accessors: [data], [key_x], [key_y]

    [if (!arguments.length) return this._f; this._f = v; return this;] *)

Definition data (args : list JSVal) (c : t) : Ret * t :=
  if (length args =? 0)%nat then (RetVal (_data c), c)
  else (RetThis, set_data (arg0 args) c).

Definition key_x (args : list JSVal) (c : t) : Ret * t :=
  if (length args =? 0)%nat then (RetVal (_key_x c), c)
  else (RetThis, set_key_x (arg0 args) c).

Definition key_y (args : list JSVal) (c : t) : Ret * t :=
  if (length args =? 0)%nat then (RetVal (_key_y c), c)
  else (RetThis, set_key_y (arg0 args) c).

(** *** [defineSettings] and [init]

    The state is the chart together with the document.  [None] stands for
    the TypeError of a method call on [null]. *)

Definition St : Type := (t * Dom)%type.

Definition defineSettings (s : St) : option St :=
  let '(c, d) := s in
  (* if (!this._line) this._line = d3.line()... *)
  let c := match _line c with
           | None => set_line LineOfChart c
           | Some _ => c
           end in
  (* if (!this._path) this._path = this._g.append("path") *)
  match _path c with
  | Some _ => Some (c, d)
  | None =>
      match _g c with
      | None => None
      | Some g =>
          let '(p, d) := append g "path" [] [] d in
          Some (set_path p c, d)
      end
  end.

Definition translate (sep : string) (a b : Z) : string :=
  "translate(" +:+ pretty a +:+ sep +:+ pretty b +:+ ")".

(** The guarded creations of [init], one per [if (this._f == null)].  Each
    of the later ones calls [this._svg.append]; [None] is the TypeError of
    that call on [null]. *)

(* Create svg chart element *)
Definition create_svg (s : St) : St :=
  let '(c, d) := s in
  match _svg c with
  | Some _ => (c, d)
  | None =>
      let '(e, d) :=
        append (select d) "svg"
          [("width", AttrNum (inject_Z (_width c + left (_margin c) + right (_margin c))));
           ("height", AttrNum (inject_Z (_height c + top (_margin c) + bottom (_margin c))))]
          [("visibility", "hidden")] d in
      (set_svg e c, d)
  end.

(* Create svg chart axis graphics element *)
Definition create_gX (s : St) : option St :=
  let '(c, d) := s in
  match _gX c with
  | Some _ => Some (c, d)
  | None =>
      svg ← _svg c;
      let '(e, d) :=
        append svg "g"
          [("class", AttrStr "chart__axis chart__axis--x");
           ("transform",
            AttrStr (translate ", " (left (_margin c)) (_height c + top (_margin c))))]
          [] d in
      Some (set_gX e c, d)
  end.

Definition create_gY (s : St) : option St :=
  let '(c, d) := s in
  match _gY c with
  | Some _ => Some (c, d)
  | None =>
      svg ← _svg c;
      let '(e, d) :=
        append svg "g"
          [("class", AttrStr "chart__axis chart__axis--y");
           ("transform",
            AttrStr (translate ", " (left (_margin c)) (top (_margin c))))]
          [] d in
      Some (set_gY e c, d)
  end.

(* Create svg chart graphics element *)
Definition create_g (s : St) : option St :=
  let '(c, d) := s in
  match _g c with
  | Some _ => Some (c, d)
  | None =>
      svg ← _svg c;
      let '(e, d) :=
        append svg "g"
          [("transform",
            AttrStr (translate "," (left (_margin c)) (top (_margin c))))]
          [] d in
      Some (set_g e c, d)
  end.

(* Create title text *)
Definition create_title (s : St) : option St :=
  let '(c, d) := s in
  match _title c with
  | Some _ => Some (c, d)
  | None =>
      svg ← _svg c;
      let '(e, d) :=
        append svg "text"
          [("x", AttrNum (inject_Z (left (_margin c)) + inject_Z (_width c) / 2)%Q);
           ("y", AttrNum 15%Q);
           ("class", AttrStr "chart__title")]
          [] d in
      Some (set_title e c, d)
  end.

(* Create subtitle text *)
Definition create_subtitle (s : St) : option St :=
  let '(c, d) := s in
  match _subtitle c with
  | Some _ => Some (c, d)
  | None =>
      svg ← _svg c;
      let '(e, d) :=
        append svg "text"
          [("x", AttrNum (inject_Z (left (_margin c)) + inject_Z (_width c) / 2)%Q);
           ("y", AttrNum 40%Q);
           ("class", AttrStr "chart__subtitle")]
          [] d in
      Some (set_subtitle e c, d)
  end.

(** [init()]; it ends in [return this]. *)
Definition init (s : St) : option St :=
  let s := create_svg s in
  s ← create_gX s;
  s ← create_gY s;
  s ← create_g s;
  s ← create_title s;
  s ← create_subtitle s;
  (* Define Settings *)
  defineSettings s.

(** *** [render]

    The rows are what [d3.csv] hands to the callback: one object per record,
    with the column headers as property names and the field texts as
    values. *)

Abbreviation Row := (gmap string string).

(** [d[k]] *)
Definition field (d : Row) (k : string) : JSVal :=
  match d !! k with
  | Some s => VString s
  | None => VUndefined
  end.

(** A JavaScript number that the data can hold: [NaN] or a finite value,
    taken at its exact rational value. *)
Inductive Num : Type :=
| NaN
| Fin (q : Q).

(** [str.replace(pat, rep)] with a string pattern: the first occurrence. *)
Fixpoint replace_first (pat rep s : string) : string :=
  if String.prefix pat s then
    rep +:+ String.substring (String.length pat)
                             (String.length s - String.length pat) s
  else
    match s with
    | EmptyString => EmptyString
    | String a r => String a (replace_first pat rep r)
    end.

(** One step of [d3.min(values, accessor)] and of [d3.max]: values that are
    not comparable with themselves ([NaN]) are passed over, and the result
    stays [undefined] ([None]) until a first comparable value is met. *)
Definition d3_min_step (min : option Q) (value : Num) : option Q :=
  match value, min with
  | NaN, _ => min
  | Fin v, None => Some v
  | Fin v, Some m => if negb (Qle_bool m v) then Some v else min
  end.

Definition d3_max_step (max : option Q) (value : Num) : option Q :=
  match value, max with
  | NaN, _ => max
  | Fin v, None => Some v
  | Fin v, Some m => if negb (Qle_bool v m) then Some v else max
  end.

(** An element of [_d]: an array object with the properties [x] and [y]
    ([pt_y] is [None] as long as [y] is not assigned). *)
Record Point : Type := mkPoint {
  pt_x : JSVal;
  pt_y : option Num
}.

(** The [[]] that [_d.push([])] adds. *)
Definition blank : Point := mkPoint VUndefined None.

Section Render.

(** ToNumber on strings (the unary [+] of the source), and the two scale
    functions of d3, which give a position on the drawing surface. *)
Variable to_number : string -> Num.
Variable Px : Type.
Variable apply_point : PointScale -> JSVal -> Px.
Variable apply_linear : LinearScale -> JSVal -> Px.

(** [+v] *)
Definition plus (v : JSVal) : Num :=
  match v with
  | VUndefined => NaN
  | VNull => Fin 0
  | VString s => to_number s
  | VArray l => to_number (join "," l)
  end.

Definition d3_min (data : list Row) (k : string) : option Q :=
  foldl (fun min d => d3_min_step min (plus (field d k))) None data.

Definition d3_max (data : list Row) (k : string) : option Q :=
  foldl (fun max d => d3_max_step max (plus (field d k))) None data.

(** The body of the first [data.forEach]; the state is [_d] and [i].
    [None] is the TypeError of an assignment to a property of
    [undefined]. *)
Definition collect_step (value : JSVal) (k : string)
    (acc : option (list Point * nat)) (d : Row) : option (list Point * nat) :=
  '(_d, i) ← acc;
  if strict_eq (field d "state") value then
    let _d := (_d ++ [blank])%list in
    p ← _d !! i;
    let _d := <[i := mkPoint (field d "") (pt_y p)]> _d in
    p ← _d !! i;
    let _d := <[i := mkPoint (pt_x p) (Some (plus (field d k)))]> _d in
    Some (_d, S i)
  else Some (_d, i).

Definition collect (value : JSVal) (k : string) (data : list Row)
    : option (list Point * nat) :=
  foldl (collect_step value k) (Some ([], 0%nat)) data.

(** An element of [tmp]. *)
Record Dot : Type := mkDot {
  dot_x : Px;
  dot_y : Px;
  active : bool
}.

(** The body of the second [data.forEach]. *)
Definition dots_step (value : JSVal) (k : string) (key_y : JSVal)
    (x : PointScale) (y : LinearScale) (tmp : list Dot) (d : Row) : list Dot :=
  if strict_eq (field d "state") value then
    (tmp ++ [mkDot (apply_point x (field d ""))
                   (apply_linear y (field d k))
                   (strict_eq (field d "") key_y)])%list
  else tmp.

(** What one completed run of the callback hands to the drawing calls of
    d3: the data of the line and the data bound to the circles. *)
Record Drawn : Type := mkDrawn {
  line_data : list Point;
  dot_data : list Dot
}.

(** [render(value)], for the outcome [csv] of the request ([None]: the
    request was rejected and the callback never runs).  The result is the
    state the callback leaves and, if it ran to its end, what it drew;
    a TypeError on the way leaves the effects made up to there. *)
Definition render (value : JSVal) (csv : option (list Row)) (s : St)
    : St * option Drawn :=
  let '(c, d) := s in
  match csv with
  | None => ((c, d), None)
  | Some data =>
  (* Set title *)
  match _title c with
  | None => ((c, d), None)
  | Some title =>
  let d := set_text title (text_of value) d in
  (* Set subtitle *)
  match _subtitle c, _key_x c with
  | Some subtitle, VString k =>
  let d := set_text subtitle (replace_first " " " | " k) d in
  (* Get and save values *)
  match collect value k data with
  | None => ((c, d), None)
  | Some (_d, _) =>
  (* Scale the range of the data; the axes; the domain of the x scale *)
  let y := mkLinearScale (d3_min data k, d3_max data k) (_height c, 0) in
  let x := mkPointScale (0, _width c) (map pt_x _d) in
  let xAxis := match _xAxis c with
               | None => Some x
               | Some a => Some a
               end in
  let yAxis := match _yAxis c with
               | None => mkLeftAxis 6 None
               | Some a => a
               end in
  let c := set_scales (Some x) (Some y) xAxis (Some yAxis) c in
  (* Render x axis *)
  match _gX c with
  | None => ((c, d), None)
  | Some _ =>
  (* Render y axis *)
  let c := set_scales (_x c) (_y c) (_xAxis c)
                      (Some (mkLeftAxis (la_ticks yAxis) (Some y))) c in
  match _gY c, _g c, _line c with
  | Some _, Some _, Some _ =>
  (* Add line to chart; edit data; render dots *)
  let tmp := foldl (dots_step value k (_key_y c) x y) [] data in
  ((c, d), Some (mkDrawn _d tmp))
  | _, _, _ => ((c, d), None)
  end end end
  | _, _ => ((c, d), None)
  end end end.

End Render.

Arguments mkDot {Px}.
Arguments dot_x {Px}.
Arguments dot_y {Px}.
Arguments active {Px}.
Arguments mkDrawn {Px}.
Arguments line_data {Px}.
Arguments dot_data {Px}.
Arguments dots_step {Px}.
Arguments render to_number {Px}.

End Chart.

(** ** VisualizationMap *)

Module VisualizationMap.

(** Modelled from the spec: [partials/map.js] is not among the sources.  The
    specification gives the map the contract of the chart ("the same accessor
    + render() + data() contract as Chart"), and the entry script configures
    it with [geo(..)] and [chart(..)].  The fields are the values behind these
    accessors; [_chart] tells whether the map holds the reference to the
    chart. *)
Record t : Type := mk {
  _geo : JSVal;
  _chart : bool;
  _data : JSVal;
  _key_x : JSVal;
  _key_y : JSVal
}.

(** Modelled from the spec: a map before any accessor has been given a value
    (the initial values of [map.js] are missing; the chart's are used). *)
Definition new : t := mk VNull false (VArray []) VNull VNull.

(** Modelled from the spec: the accessors of [map.js] are missing; they
    follow the pattern the specification states for both views (no argument
    reads, an argument writes and returns the view). *)
Definition data (args : list JSVal) (m : t) : Ret * t :=
  if (length args =? 0)%nat then (RetVal (_data m), m)
  else (RetThis, mk (_geo m) (_chart m) (arg0 args) (_key_x m) (_key_y m)).

(** Modelled from the spec: see [data]. *)
Definition key_x (args : list JSVal) (m : t) : Ret * t :=
  if (length args =? 0)%nat then (RetVal (_key_x m), m)
  else (RetThis, mk (_geo m) (_chart m) (_data m) (arg0 args) (_key_y m)).

(** Modelled from the spec: see [data]. *)
Definition key_y (args : list JSVal) (m : t) : Ret * t :=
  if (length args =? 0)%nat then (RetVal (_key_y m), m)
  else (RetThis, mk (_geo m) (_chart m) (_data m) (_key_x m) (arg0 args)).

(** Modelled from the spec: [geo(file)] as the entry script calls it. *)
Definition geo (file : JSVal) (m : t) : Ret * t :=
  (RetThis, mk file (_chart m) (_data m) (_key_x m) (_key_y m)).

(** Modelled from the spec: [chart(chart)] as the entry script calls it. *)
Definition chart (m : t) : Ret * t :=
  (RetThis, mk (_geo m) true (_data m) (_key_x m) (_key_y m)).

End VisualizationMap.

(** ** Strings of the page *)

Module Text.

(** The double-quote character of the markup. *)
Definition dq : string := String (ascii_of_nat 34) EmptyString.

(** [s.indexOf(pat) >= 0] *)
Fixpoint contains (pat s : string) : bool :=
  if String.prefix pat s then true
  else
    match s with
    | EmptyString => false
    | String _ r => contains pat r
    end.

(** [s.split(c)] for a separator of one character. *)
Fixpoint split (c : ascii) (s : string) : list string :=
  match s with
  | EmptyString => [EmptyString]
  | String a r =>
      if Ascii.eqb a c then EmptyString :: split c r
      else
        match split c r with
        | [] => [String a EmptyString]
        | x :: xs => String a x :: xs
        end
  end.

(** The text before the first [c], and the text after it if [c] occurs. *)
Fixpoint cut (c : ascii) (s : string) : string * option string :=
  match s with
  | EmptyString => (EmptyString, None)
  | String a r =>
      if Ascii.eqb a c then (EmptyString, Some r)
      else let '(x, y) := cut c r in (String a x, y)
  end.

End Text.
Import Text.

(** ** Controller *)

Module Controller.

(** The constants of [modules/variables.js] whose text ends up in the state
    of the page.  That file is not among the sources, so they are a parameter
    of every operation that reads them.  Its selectors only name the regions
    of the host page; each region is a field of [Document] below. *)
Record Global : Type := mkGlobal {
  GEO_FILE : string;
  DEVICE_NOTICE_COOKIE : string;
  DEVICE_NOTICE_CONFIRMED_CLASS : string
}.

(** The information file, as the [done] callback receives it. *)
Record Manifest : Type := mkManifest {
  m_title : string;
  m_author : string;
  m_url : string;
  m_file : string;
  m_attributes : gmap string (list string)
}.

(** A [select] element of the controls region: its options carry the same
    text as value and as label; [sel_selected] is the position of the selected
    option and [sel_change] the number of [change] handlers on the element. *)
Record Select : Type := mkSelect {
  sel_name : string;
  sel_class : string;
  sel_options : list string;
  sel_selected : nat;
  sel_change : nat
}.

(** The fullscreen region: its markup, the classes added to its child
    element, and whether its fade-out has been queued. *)
Record Overlay : Type := mkOverlay {
  ov_html : string;
  ov_child_class : list string;
  ov_closing : bool
}.

(** The document: title, cookies (name and value, in the order
    [document.cookie] lists them), the classes of [body], and the regions the
    controller writes to.  [confirm_click] counts the [click] handlers on the
    confirm button of the device notice. *)
Record Document : Type := mkDocument {
  title : string;
  cookies : list (string * string);
  body_class : list string;
  wrapper_shown : bool;
  fullscreen : Overlay;
  data_info : string;
  controls_html : string;
  controls : list Select;
  main_shown : bool;
  confirm_click : nat
}.

Definition set_title (v : string) (d : Document) : Document :=
  mkDocument v (cookies d) (body_class d) (wrapper_shown d) (fullscreen d)
             (data_info d) (controls_html d) (controls d) (main_shown d)
             (confirm_click d).

Definition set_cookies (v : list (string * string)) (d : Document) : Document :=
  mkDocument (title d) v (body_class d) (wrapper_shown d) (fullscreen d)
             (data_info d) (controls_html d) (controls d) (main_shown d)
             (confirm_click d).

Definition set_body_class (v : list string) (d : Document) : Document :=
  mkDocument (title d) (cookies d) v (wrapper_shown d) (fullscreen d)
             (data_info d) (controls_html d) (controls d) (main_shown d)
             (confirm_click d).

Definition set_wrapper_shown (v : bool) (d : Document) : Document :=
  mkDocument (title d) (cookies d) (body_class d) v (fullscreen d)
             (data_info d) (controls_html d) (controls d) (main_shown d)
             (confirm_click d).

Definition set_fullscreen (v : Overlay) (d : Document) : Document :=
  mkDocument (title d) (cookies d) (body_class d) (wrapper_shown d) v
             (data_info d) (controls_html d) (controls d) (main_shown d)
             (confirm_click d).

Definition set_data_info (v : string) (d : Document) : Document :=
  mkDocument (title d) (cookies d) (body_class d) (wrapper_shown d) (fullscreen d)
             v (controls_html d) (controls d) (main_shown d)
             (confirm_click d).

Definition set_controls (h : string) (v : list Select) (d : Document) : Document :=
  mkDocument (title d) (cookies d) (body_class d) (wrapper_shown d) (fullscreen d)
             (data_info d) h v (main_shown d)
             (confirm_click d).

Definition set_main_shown (v : bool) (d : Document) : Document :=
  mkDocument (title d) (cookies d) (body_class d) (wrapper_shown d) (fullscreen d)
             (data_info d) (controls_html d) (controls d) v
             (confirm_click d).

Definition set_confirm_click (v : nat) (d : Document) : Document :=
  mkDocument (title d) (cookies d) (body_class d) (wrapper_shown d) (fullscreen d)
             (data_info d) (controls_html d) (controls d) (main_shown d)
             v.

(** What has happened so far, the latest event first.  The three operations
    of the initial start are recorded when their call returns. *)
Inductive Event : Type :=
| MapDataBound (file : JSVal)
| ChartDataBound (file : JSVal)
| MapRendered (key_x key_y : JSVal)
| Updated
| FullscreenClosed.

#[global] Instance Event_eq_dec : EqDecision Event.
Proof. solve_decision. Defined.

(** The controller with its two views, the document and the record of
    events.  [map] and [chart] are the objects themselves: the controller, the
    entry script and the map all refer to this one chart. *)
Record World : Type := mkWorld {
  doc : Document;
  data : option Manifest;
  dataFile : string;
  map : VisualizationMap.t;
  chart : Chart.t;
  log : list Event
}.

Definition on_doc (f : Document -> Document) (w : World) : World :=
  mkWorld (f (doc w)) (data w) (dataFile w) (map w) (chart w) (log w).

Definition set_manifest (m : Manifest) (w : World) : World :=
  mkWorld (doc w) (Some m) (m_file m) (map w) (chart w) (log w).

Definition set_map (m : VisualizationMap.t) (w : World) : World :=
  mkWorld (doc w) (data w) (dataFile w) m (chart w) (log w).

Definition set_chart (c : Chart.t) (w : World) : World :=
  mkWorld (doc w) (data w) (dataFile w) (map w) c (log w).

Definition record (e : Event) (w : World) : World :=
  mkWorld (doc w) (data w) (dataFile w) (map w) (chart w) (e :: log w).

(** *** The page wrapper and the fullscreen region *)

Definition hidePage (d : Document) : Document := set_wrapper_shown false d.

Definition showPage (d : Document) : Document := set_wrapper_shown true d.

Definition spinner : string :=
  "<div class=" +:+ dq +:+ "sk-wave" +:+ dq +:+ ">
        <div class=" +:+ dq +:+ "sk-rect sk-rect1" +:+ dq +:+ "></div>
        <div class=" +:+ dq +:+ "sk-rect sk-rect2" +:+ dq +:+ "></div>
        <div class=" +:+ dq +:+ "sk-rect sk-rect3" +:+ dq +:+ "></div>
        <div class=" +:+ dq +:+ "sk-rect sk-rect4" +:+ dq +:+ "></div>
        <div class=" +:+ dq +:+ "sk-rect sk-rect5" +:+ dq +:+ "></div>
      </div>".

Definition initSpinner (d : Document) : Document :=
  let d := hidePage d in
  set_fullscreen (mkOverlay spinner ["spinner"] (ov_closing (fullscreen d))) d.

(** The two [delay(300).fadeOut(..)] calls queue the fade-out of the region
    and of its content. *)
Definition closeFullscreen (w : World) : World :=
  let scr := fullscreen (doc w) in
  record FullscreenClosed
    (on_doc (set_fullscreen (mkOverlay (ov_html scr) (ov_child_class scr) true)) w).

(** *** The device notice *)

(** [$(..).addClass(c)] *)
Definition addClass (c : string) (l : list string) : list string :=
  if bool_decide (c ∈ l) then l else (l ++ [c])%list.

(** What reading [document.cookie] gives. *)
Definition cookie_text (jar : list (string * string)) : string :=
  join "; " (List.map (fun p => if String.eqb (fst p) "" then snd p
                                else fst p +:+ "=" +:+ snd p) jar).

Fixpoint put_cookie (n v : string) (jar : list (string * string))
    : list (string * string) :=
  match jar with
  | [] => [(n, v)]
  | (n', v') :: r =>
      if String.eqb n' n then (n, v) :: r else (n', v') :: put_cookie n v r
  end.

(** What the assignment [document.cookie = s] does to the cookies: the text
    before the first [;] names the cookie and its value, which replaces the
    value of a cookie of that name or is added as a new cookie. *)
Definition assign_cookie (s : string) (jar : list (string * string))
    : list (string * string) :=
  let pair := fst (cut ";" s) in
  match cut "=" pair with
  | (n, Some v) => put_cookie n v jar
  | (v, None) => put_cookie "" v jar
  end.

(** The test of [initDeviceNotice] on the text of [document.cookie]. *)
Definition cookie_found (name : string) (text : string) : bool :=
  let cookies := List.filter (fun c => (0 <? String.length c)%nat) (split ";" text) in
  existsb (fun c => contains (name +:+ "=") c) cookies.

Definition initDeviceNotice (G : Global) (d : Document) : Document :=
  (* Read all cookies *)
  if cookie_found (DEVICE_NOTICE_COOKIE G) (cookie_text (cookies d)) then
    (* Set confirm class if cookie is already set *)
    set_body_class (addClass (DEVICE_NOTICE_CONFIRMED_CLASS G) (body_class d)) d
  else d.

Definition hideDeviceNotice (G : Global) (d : Document) : Document :=
  (* Set cookie *)
  let d := set_cookies (assign_cookie (DEVICE_NOTICE_COOKIE G +:+ "=true") (cookies d)) d in
  (* Add class to hide device notice *)
  set_body_class (addClass (DEVICE_NOTICE_CONFIRMED_CLASS G) (body_class d)) d.

(** *** [update] *)

(** [$('.controls__k :selected').val()]: the value of the first selected
    option below an element of that class, [undefined] if there is none. *)
Definition selected_option (e : Select) : option string :=
  sel_options e !! sel_selected e.

Definition val_selected (cls : string) (cs : list Select) : JSVal :=
  match omap selected_option
             (List.filter (fun e => String.eqb (sel_class e) cls) cs) with
  | v :: _ => VString v
  | [] => VUndefined
  end.

(** [a.f(..).g(..)] on a view: [g] is called on what [f] returned; a value
    that is not the view has no such method (a TypeError, [None]). *)
Definition chained {T : Type} (r : Ret * T) (g : T -> Ret * T) : option (Ret * T) :=
  match fst r with
  | RetThis => Some (g (snd r))
  | RetVal _ => None
  end.

(** Modelled from the spec: [render()] of [map.js] is missing; the call is
    recorded with the keys the map holds at that time. *)
Definition map_render (w : World) : World :=
  record (MapRendered (VisualizationMap._key_x (map w))
                      (VisualizationMap._key_y (map w))) w.

Definition update (w : World) : option World :=
  (* Read and format keys *)
  let nationality := val_selected "controls__nationality" (controls (doc w)) in
  let sex := val_selected "controls__sex" (controls (doc w)) in
  let key_x := VString (to_string nationality +:+ " " +:+ to_string sex) in
  let key_y := val_selected "controls__semester" (controls (doc w)) in
  (* Set keys *)
  m ← chained (VisualizationMap.key_x [key_x] (map w))
              (VisualizationMap.key_y [key_y]);
  let w := set_map (snd m) w in
  c ← chained (Chart.key_x [key_x] (chart w)) (Chart.key_y [key_y]);
  let w := set_chart (snd c) w in
  (* Render map *)
  Some (map_render w).

(** *** [getDataInformation] *)

Definition attributes : list string := ["nationality"; "sex"; "semester"].

Definition info_markup (data : Manifest) : string :=
  "<h1>" +:+ m_title data +:+ "</h1>
<p>
  Publisher: " +:+ m_author data +:+ "<br />
  <a href=" +:+ dq +:+ m_url data +:+ dq +:+ " target=" +:+ dq +:+ "_blank" +:+ dq +:+ ">Download source data</a>
</p>".

Definition option_markup (attr : string) : string :=
  "<option value=" +:+ dq +:+ attr +:+ dq +:+ ">" +:+ attr +:+ "</option>".

Definition select_open (key : string) : string :=
  "<select name=" +:+ dq +:+ key +:+ dq +:+ " class=" +:+ dq +:+ "controls__" +:+ key
  +:+ dq +:+ ">".

(** The body of the loop over [attributes] that builds [output]. *)
Definition controls_step (attrs : gmap string (list string))
    (output : string) (key : string) : string :=
  match attrs !! key with
  | None => output
  | Some values =>
      let output := output +:+ select_open key in
      let output := foldl (fun output attr => output +:+ option_markup attr)
                          output values in
      output +:+ "</select> "
  end.

Definition controls_output (attrs : gmap string (list string)) : string :=
  foldl (controls_step attrs) "" attributes.

(** The elements that the controls region holds once [controls_output] is
    its markup: one [select] per opening tag, with an option per [option]
    tag, the first option selected and no handler yet (attribute values are
    taken to be free of markup characters). *)
Definition controls_elements (attrs : gmap string (list string)) : list Select :=
  omap (fun key => (fun values => mkSelect key ("controls__" +:+ key) values 0 0)
                     <$> attrs !! key)
       attributes.

(** [$(`.controls__${key}`).on('change', ..)] *)
Definition on_change (key : string) (cs : list Select) : list Select :=
  List.map (fun e =>
              if String.eqb (sel_class e) ("controls__" +:+ key)
              then mkSelect (sel_name e) (sel_class e) (sel_options e)
                            (sel_selected e) (S (sel_change e))
              else e) cs.

(** [$.when(a, b, c).done(f)]: an argument that is neither a Deferred nor a
    thenable counts as resolved.  A view has neither a [promise] nor a [then]
    method and the other values are strings, arrays, [null] and [undefined],
    so every argument is resolved and [f] runs at once. *)
Definition settled (r : Ret) : bool :=
  match r with
  | RetThis => true
  | RetVal _ => true
  end.

Definition when_done (args : list Ret) (f : World -> World) (w : World) : World :=
  if forallb settled args then f w else w.

(** The [done] callback. *)
Definition done (G : Global) (data : Manifest) (w : World) : option World :=
  (* this.data = data; set data file *)
  let w := set_manifest data w in
  (* Display data information *)
  let w := on_doc (set_data_info (info_markup data)) w in
  (* Display visualization options *)
  let w := on_doc (set_controls (controls_output (m_attributes data))
                                (controls_elements (m_attributes data))) w in
  (* Register Change events for visualization options *)
  let w := on_doc (fun d => set_controls (controls_html d)
                              (foldl (fun cs key => on_change key cs)
                                     (controls d) attributes) d) w in
  (* Check if cookie for device-notice is set *)
  let w := on_doc (initDeviceNotice G) w in
  (* Start visualization, then hide spinner *)
  let a := VisualizationMap.data [VString (dataFile w)] (map w) in
  let w := record (MapDataBound (VString (dataFile w))) (set_map (snd a) w) in
  let b := Chart.data [VString (dataFile w)] (chart w) in
  let w := record (ChartDataBound (VString (dataFile w))) (set_chart (snd b) w) in
  w ← update w;
  let w := record Updated w in
  let w := when_done [fst a; fst b; RetVal VUndefined] closeFullscreen w in
  (* Add event for confirm button of device notice *)
  let w := on_doc (fun d => set_confirm_click (S (confirm_click d)) d) w in
  (* Change document title *)
  Some (on_doc (fun d => set_title (title d +:+ ": " +:+ m_title data) d) w).

Definition fallback : string :=
  "<h1>Data is not available yet.</h1>
<div class=" +:+ dq +:+ "error" +:+ dq +:+ ">
  <p>
    <strong>Please follow these steps to get the latest data:</strong>
  </p>
  <p>
    <ol>
      <li>
        Open a command line.
      </li>
      <li>
        Change to the root directory of this project:<br />
        <code>cd /path/to/student-growth</code>
      </li>
      <li>
        Download the latest data set using Python:<br />
        <code>python3 bin/download.py</code>
      </li>
      <li>
        Click " +:+ dq +:+ "Refresh" +:+ dq +:+ " to start the visualization.
      </li>
    </ol>
  </p>
  <p>
    <button onclick=" +:+ dq +:+ "window.location.reload()" +:+ dq +:+ ">Refresh</button>
  </p>
</div>".

(** The [fail] callback. *)
Definition fail (w : World) : World :=
  (* Display error *)
  let w := on_doc (set_data_info fallback) w in
  (* Hide main content *)
  let w := on_doc (set_main_shown false) w in
  (* Hide spinner *)
  closeFullscreen w.

(** The [always] callback. *)
Definition always (w : World) : World := on_doc showPage w.

(** The answer to the request for the information file. *)
Inductive Response : Type :=
| Loaded (data : Manifest)
| Failed.

(** [getDataInformation], given the answer that arrives. *)
Definition getDataInformation (G : Global) (r : Response) (w : World) : option World :=
  match r with
  | Loaded data => w ← done G data w; Some (always w)
  | Failed => Some (always (fail w))
  end.

(** [new Controller(map, chart)] in a document [d], up to the request. *)
Definition construct (m : VisualizationMap.t) (c : Chart.t) (d : Document) : World :=
  mkWorld (initSpinner d) None "" m c [].

(** *** What the user does *)


Fixpoint index_of (v : string) (l : list string) : option nat :=
  match l with
  | [] => None
  | x :: r => if String.eqb x v then Some 0%nat else S <$> index_of v r
  end.

(** Choosing the option [v] of the control named [name].  Without such a
    control or option nothing can be chosen; a choice that changes the
    selection fires the [change] handlers of the element. *)
Fixpoint choose (name v : string) (cs : list Select) : option (list Select * nat) :=
  match cs with
  | [] => None
  | e :: r =>
      if String.eqb (sel_name e) name then
        match index_of v (sel_options e) with
        | Some i =>
            if (i =? sel_selected e)%nat then None
            else Some (mkSelect (sel_name e) (sel_class e) (sel_options e) i
                                (sel_change e) :: r, sel_change e)
        | None => None
        end
      else (fun p => (e :: fst p, snd p)) <$> choose name v r
  end.

Fixpoint updates (n : nat) (w : World) : option World :=
  match n with
  | O => Some w
  | S k => w ← update w; updates k w
  end.

Definition user_selects (name v : string) (w : World) : option World :=
  match choose name v (controls (doc w)) with
  | None => Some w
  | Some (cs, handlers) =>
      updates handlers (on_doc (fun d => set_controls (controls_html d) cs d) w)
  end.

(** *** The entry script *)

Definition main (G : Global) (d : Document) (svg : Dom) (r : Response)
    : option (World * Dom) :=
  (* Initialize Chart and Map *)
  '(chart, svg) ← Chart.init (Chart.new, svg);
  m ← chained (VisualizationMap.geo (VString (GEO_FILE G)) VisualizationMap.new)
              VisualizationMap.chart;
  (* Get data and update visualization *)
  w ← getDataInformation G r (construct (snd m) chart d);
  Some (w, svg).

End Controller.

(** * The vocabulary of the properties *)

(** ** Chart *)

(** The references that [init] and [defineSettings] fill in are all set. *)
Definition holds {A : Type} (o : option A) : bool :=
  match o with
  | Some _ => true
  | None => false
  end.

Definition initialised (c : Chart.t) : bool :=
  holds (Chart._svg c) && holds (Chart._gX c) && holds (Chart._gY c)
  && holds (Chart._g c) && holds (Chart._title c) && holds (Chart._subtitle c)
  && holds (Chart._line c) && holds (Chart._path c).

(** What [init] appends for a chart that has nothing yet, below the element
    [host] of a document that holds [n] nodes. *)
Definition first_nodes (host n : nat) : list Node :=
  [ mkNode "svg" (Some host)
      [("width", AttrNum (inject_Z 700)); ("height", AttrNum (inject_Z 500))]
      [("visibility", "hidden")] "";
    mkNode "g" (Some n)
      [("class", AttrStr "chart__axis chart__axis--x");
       ("transform", AttrStr (Chart.translate ", " 80 380))] [] "";
    mkNode "g" (Some n)
      [("class", AttrStr "chart__axis chart__axis--y");
       ("transform", AttrStr (Chart.translate ", " 80 50))] [] "";
    mkNode "g" (Some n) [("transform", AttrStr (Chart.translate "," 80 50))] [] "";
    mkNode "text" (Some n)
      [("x", AttrNum (inject_Z 80 + inject_Z 590 / 2)%Q); ("y", AttrNum 15%Q);
       ("class", AttrStr "chart__title")] [] "";
    mkNode "text" (Some n)
      [("x", AttrNum (inject_Z 80 + inject_Z 590 / 2)%Q); ("y", AttrNum 40%Q);
       ("class", AttrStr "chart__subtitle")] [] "";
    mkNode "path" (Some (n + 3)%nat) [] [] "" ].

(** What [render] calls a method on before it has drawn, and the key that
    must be a string for [replace]: with all of them in place the callback
    runs to its end. *)
Definition is_string (v : JSVal) : bool :=
  match v with
  | VString _ => true
  | _ => false
  end.

Definition ready (c : Chart.t) : bool :=
  holds (Chart._title c) && holds (Chart._subtitle c) && is_string (Chart._key_x c)
  && holds (Chart._gX c) && holds (Chart._gY c) && holds (Chart._g c)
  && holds (Chart._line c).

(** The rows of the category [value]: those whose [state] is [value]. *)
Definition of_category (value : JSVal) (d : gmap string string) : bool :=
  strict_eq (Chart.field d "state") value.

(** The point of a row: its id, from the column with the empty header, and
    the number in the column [k]. *)
Definition point_of (to_number : string → Chart.Num) (k : string)
    (d : gmap string string) : Chart.Point :=
  Chart.mkPoint (Chart.field d "") (Some (Chart.plus to_number (Chart.field d k))).

(** ** Controller *)

(** The two keys that [update] composes from the controls of a document. *)
Definition composed_key_x (d : Controller.Document) : JSVal :=
  VString (to_string (Controller.val_selected "controls__nationality" (Controller.controls d))
           +:+ " "
           +:+ to_string (Controller.val_selected "controls__sex" (Controller.controls d))).

Definition composed_key_y (d : Controller.Document) : JSVal :=
  Controller.val_selected "controls__semester" (Controller.controls d).

(** The state that [update] leaves. *)
Definition updated (w : Controller.World) : Controller.World :=
  let kx := composed_key_x (Controller.doc w) in
  let ky := composed_key_y (Controller.doc w) in
  Controller.mkWorld (Controller.doc w) (Controller.data w) (Controller.dataFile w)
    (snd (VisualizationMap.key_y [ky] (snd (VisualizationMap.key_x [kx] (Controller.map w)))))
    (snd (Chart.key_y [ky] (snd (Chart.key_x [kx] (Controller.chart w)))))
    (Controller.MapRendered kx ky :: Controller.log w).

(** The controls after the [done] callback: the elements of the markup, each
    with the [change] handler registered on it. *)
Definition wired_controls (data : Controller.Manifest) : list Controller.Select :=
  foldl (fun cs key => Controller.on_change key cs)
        (Controller.controls_elements (Controller.m_attributes data))
        Controller.attributes.

(** The keys of the first [update], read from the fresh controls. *)
Definition first_key_x (data : Controller.Manifest) : JSVal :=
  VString (to_string (Controller.val_selected "controls__nationality" (wired_controls data))
           +:+ " "
           +:+ to_string (Controller.val_selected "controls__sex" (wired_controls data))).

Definition first_key_y (data : Controller.Manifest) : JSVal :=
  Controller.val_selected "controls__semester" (wired_controls data).

(** The state that the [done] callback leaves. *)
Definition started (G : Controller.Global) (data : Controller.Manifest)
    (w : Controller.World) : Controller.World :=
  let d := Controller.doc w in
  let file := VString (Controller.m_file data) in
  let scr := Controller.fullscreen d in
  Controller.mkWorld
    (Controller.mkDocument
       (Controller.title d +:+ ": " +:+ Controller.m_title data)
       (Controller.cookies d)
       (Controller.body_class (Controller.initDeviceNotice G d))
       (Controller.wrapper_shown d)
       (Controller.mkOverlay (Controller.ov_html scr) (Controller.ov_child_class scr) true)
       (Controller.info_markup data)
       (Controller.controls_output (Controller.m_attributes data))
       (wired_controls data)
       (Controller.main_shown d)
       (S (Controller.confirm_click d)))
    (Some data)
    (Controller.m_file data)
    (snd (VisualizationMap.key_y [first_key_y data]
            (snd (VisualizationMap.key_x [first_key_x data]
                    (snd (VisualizationMap.data [file] (Controller.map w)))))))
    (snd (Chart.key_y [first_key_y data]
            (snd (Chart.key_x [first_key_x data]
                    (snd (Chart.data [file] (Controller.chart w)))))))
    (Controller.FullscreenClosed :: Controller.Updated
     :: Controller.MapRendered (first_key_x data) (first_key_y data)
     :: Controller.ChartDataBound file :: Controller.MapDataBound file
     :: Controller.log w).

(** A page as the browser hands it to the entry script: its title, cookies
    and body classes, empty regions, everything shown, no handler yet. *)
Definition host_page (t : string) (jar : list (string * string)) (cls : list string)
    : Controller.Document :=
  Controller.mkDocument t jar cls true (Controller.mkOverlay "" [] false)
                        "" "" [] true 0.










(** The character [c] does not occur in [s]. *)
Fixpoint free_of (c : ascii) (s : string) : bool :=
  match s with
  | EmptyString => true
  | String a r => negb (Ascii.eqb a c) && free_of c r
  end.


(** ** The example of the specification *)



(** The user chooses one option after the other. *)
Fixpoint selections (l : list (string * string)) (w : Controller.World)
    : option Controller.World :=
  match l with
  | [] => Some w
  | (name, v) :: r => w ← Controller.user_selects name v w; selections r w
  end.



(** ** Sample data *)

(** A converter for the samples: decimal numerals, and the empty text, are
    read as ToNumber reads them; any other text is treated as not a number. *)
Fixpoint numeral (s : string) (acc : N) : option N :=
  match s with
  | EmptyString => Some acc
  | String a r =>
      let n := N_of_ascii a in
      if ((48 <=? n) && (n <=? 57))%N then numeral r (10 * acc + (n - 48))%N
      else None
  end.

Definition sample_number (s : string) : Chart.Num :=
  match numeral s 0 with
  | Some n => Chart.Fin (Z.of_N n # 1)
  | None => Chart.NaN
  end.

Definition sample_rows : list (gmap string string) :=
  [ {[ "" := "WS 2015/16"; "state" := "Bayern"; "German f" := "120" ]};
    {[ "" := "WS 2015/16"; "state" := "Berlin"; "German f" := "300" ]};
    {[ "" := "SS 2016"; "state" := "Bayern"; "German f" := "90" ]};
    {[ "" := "SS 2016"; "state" := "Berlin"; "German f" := "n/a" ]} ].

(** A page with a chart container, and the chart of the entry script in it
    with the keys of a selection. *)
Definition sample_dom : Dom := mkDom (Some 0%nat) [mkNode "div" None [] [] ""].

Definition sample_chart : Chart.St :=
  Eval vm_compute in
    match Chart.init (Chart.new, sample_dom) with
    | Some (c, d) =>
        (Chart.set_key_y (VString "SS 2016") (Chart.set_key_x (VString "German f") c), d)
    | None => (Chart.new, sample_dom)
    end.

(** Scales for the samples that show what they are applied to. *)
Definition sample_point (x : Chart.PointScale) (v : JSVal) : JSVal := v.
Definition sample_linear (y : Chart.LinearScale) (v : JSVal) : JSVal := v.

Definition sample_global : Controller.Global :=
  Controller.mkGlobal "data/germany.json" "device-notice" "device-notice-confirmed".

Definition sample_manifest : Controller.Manifest :=
  Controller.mkManifest "Growth" "Destatis" "https://example.org/data" "data/students.csv"
    {[ "nationality" := ["German"; "Foreign"];
       "sex" := ["m"; "f"];
       "semester" := ["WS 2015/16"; "SS 2016"] ]}.


(** ** Further vocabulary: the views and the selection *)

(** Every control carries a [change] handler. *)
Definition wired (cs : list Controller.Select) : bool :=
  forallb (fun e => (0 <? Controller.sel_change e)%nat) cs.

(** Both views hold the keys that [update] composes from the controls as
    they are now. *)
Definition in_step (w : Controller.World) : Prop :=
  Chart._key_x (Controller.chart w) = composed_key_x (Controller.doc w)
  ∧ Chart._key_y (Controller.chart w) = composed_key_y (Controller.doc w)
  ∧ VisualizationMap._key_x (Controller.map w) = composed_key_x (Controller.doc w)
  ∧ VisualizationMap._key_y (Controller.map w) = composed_key_y (Controller.doc w).


(** What a choice of the user leaves alone in a control: its name, class,
    options and handlers. *)
Definition shape (e : Controller.Select) : string * string * list string * nat :=
  (Controller.sel_name e, Controller.sel_class e, Controller.sel_options e,
   Controller.sel_change e).

(** The class of every control is made from its name, as the markup of
    [getDataInformation] has it. *)
Definition classed (cs : list Controller.Select) : Prop :=
  Forall (fun e => Controller.sel_class e = "controls__" +:+ Controller.sel_name e) cs.

(** A world after a successful load and any choices of the user: the
    controls are those of the manifest, up to what is selected, and the views
    are in step with them. *)
Definition settled (data : Controller.Manifest) (w : Controller.World) : Prop :=
  classed (Controller.controls (Controller.doc w))
  ∧ wired (Controller.controls (Controller.doc w)) = true
  ∧ List.map shape (Controller.controls (Controller.doc w))
    = List.map shape (wired_controls data)
  ∧ in_step w.

(** ** Further vocabulary: what a render leaves *)

(** The scales that a completed render of the rows [data] for the category
    [value] and the column [k] builds. *)
Definition x_scale_of (value : JSVal) (data : list (gmap string string))
    (c : Chart.t) : Chart.PointScale :=
  Chart.mkPointScale (0, Chart._width c)
    (List.map (fun row => Chart.field row "") (List.filter (of_category value) data)).

Definition y_scale_of (to_number : string → Chart.Num) (k : string)
    (data : list (gmap string string)) (c : Chart.t) : Chart.LinearScale :=
  Chart.mkLinearScale (Chart.d3_min to_number data k, Chart.d3_max to_number data k)
                      (Chart._height c, 0).

(** The chart and the document after such a render. *)
Definition rendered_chart (to_number : string → Chart.Num) (value : JSVal) (k : string)
    (data : list (gmap string string)) (c : Chart.t) : Chart.t :=
  Chart.set_scales
    (Some (x_scale_of value data c))
    (Some (y_scale_of to_number k data c))
    (match Chart._xAxis c with
     | None => Some (x_scale_of value data c)
     | Some a => Some a
     end)
    (Some (Chart.mkLeftAxis
             (match Chart._yAxis c with
              | None => 6
              | Some a => Chart.la_ticks a
              end)
             (Some (y_scale_of to_number k data c))))
    c.

Definition rendered_dom (value : JSVal) (k : string) (c : Chart.t) (d : Dom) : Dom :=
  match Chart._title c, Chart._subtitle c with
  | Some title, Some subtitle =>
      set_text subtitle (Chart.replace_first " " " | " k)
               (set_text title (text_of value) d)
  | _, _ => d
  end.


(** ** Further vocabulary: what [init] adds *)

(** A reference that is set stays as it is. *)
Definition kept {A : Type} (o o' : option A) : Prop :=
  ∀ a, o = Some a → o' = Some a.

(** The second state comes from the first by filling in references of the
    chart and appending at most [n] nodes to the document. *)
Definition grown (n : nat) (s s' : Chart.St) : Prop :=
  let c := fst s in
  let c' := fst s' in
  c' = Chart.set_elements (Chart._svg c') (Chart._title c') (Chart._subtitle c')
                          (Chart._path c') (Chart._line c') (Chart._g c')
                          (Chart._gX c') (Chart._gY c') c
  ∧ kept (Chart._svg c) (Chart._svg c') ∧ kept (Chart._title c) (Chart._title c')
  ∧ kept (Chart._subtitle c) (Chart._subtitle c') ∧ kept (Chart._path c) (Chart._path c')
  ∧ kept (Chart._line c) (Chart._line c') ∧ kept (Chart._g c) (Chart._g c')
  ∧ kept (Chart._gX c) (Chart._gX c') ∧ kept (Chart._gY c) (Chart._gY c')
  ∧ container (snd s') = container (snd s)
  ∧ ∃ extra, nodes (snd s') = (nodes (snd s) ++ extra)%list ∧ (length extra ≤ n)%nat.

(** ** Further vocabulary: what the page takes from the manifest *)



(** * Properties *)

(** ** Strings *)

Lemma append_assoc (a b c : string) : (a +:+ b) +:+ c = a +:+ (b +:+ c).
Proof.
  induction a as [|x a IH]; [reflexivity|].
  change (String x ((a +:+ b) +:+ c) = String x (a +:+ (b +:+ c))).
  by rewrite IH.
Qed.

Lemma append_nil_r (a : string) : a +:+ "" = a.
Proof.
  induction a as [|x a IH]; [reflexivity|].
  change (String x (a +:+ "") = String x a). by rewrite IH.
Qed.

Lemma append_cons (a : ascii) (s t : string) :
  String a s +:+ t = String a (s +:+ t).
Proof. reflexivity. Qed.

Lemma prefix_nil (s : string) : String.prefix "" s = true.
Proof. by destruct s. Qed.

Lemma prefix_cons (a b : ascii) (p s : string) :
  String.prefix (String a p) (String b s)
  = if Ascii.eqb a b then String.prefix p s else false.
Proof.
  change (String.prefix (String a p) (String b s))
    with (if ascii_dec a b then String.prefix p s else false).
  destruct (ascii_dec a b) as [->|N].
  - by rewrite Ascii.eqb_refl.
  - apply Ascii.eqb_neq in N. by rewrite N.
Qed.

Lemma contains_cons (p : string) (a : ascii) (r : string) :
  contains p (String a r)
  = if String.prefix p (String a r) then true else contains p r.
Proof. reflexivity. Qed.

Lemma prefix_append (p x : string) : String.prefix p (p +:+ x) = true.
Proof.
  induction p as [|a p IH]; [apply prefix_nil|].
  by rewrite append_cons, prefix_cons, Ascii.eqb_refl.
Qed.

Lemma prefix_append_l (p a b : string) :
  String.prefix p a = true → String.prefix p (a +:+ b) = true.
Proof.
  revert a. induction p as [|x p IH]; intros a H; [apply prefix_nil|].
  destruct a as [|y a]; [discriminate H|].
  rewrite append_cons, prefix_cons. rewrite prefix_cons in H.
  destruct (Ascii.eqb x y); [by apply IH|done].
Qed.

Lemma contains_append_l (p a b : string) :
  contains p a = true → contains p (a +:+ b) = true.
Proof.
  induction a as [|y a IH]; intros H.
  - destruct p; [|discriminate H]. destruct b; reflexivity.
  - rewrite append_cons, contains_cons. rewrite contains_cons in H.
    destruct (String.prefix p (String y a)) eqn:E.
    + by rewrite <- append_cons, (prefix_append_l _ _ _ E).
    + destruct (String.prefix p (String y (a +:+ b))); [done|by apply IH].
Qed.

Lemma contains_append_r (p a b : string) :
  contains p b = true → contains p (a +:+ b) = true.
Proof.
  intros H. induction a as [|y a IH]; [done|].
  rewrite append_cons, contains_cons.
  by destruct (String.prefix p (String y (a +:+ b))).
Qed.

Lemma split_cons (c a : ascii) (r : string) :
  ∃ x xs, split c r = x :: xs
          ∧ split c (String a r)
            = if Ascii.eqb a c then "" :: x :: xs else String a x :: xs.
Proof.
  assert (∃ x xs, split c r = x :: xs) as (x & xs & E).
  { destruct r as [|b r]; cbn [split]; [eauto|].
    destruct (Ascii.eqb b c); [eauto|]. destruct (split c r); eauto. }
  exists x, xs. split; [done|]. cbn [split]. rewrite E. done.
Qed.

Lemma prefix_split_head (c : ascii) (p s : string) :
  free_of c p = true → String.prefix p s = true →
  String.prefix p (hd "" (split c s)) = true.
Proof.
  revert s. induction p as [|a p IH]; intros s F H; [apply prefix_nil|].
  destruct s as [|b s]; [discriminate H|].
  rewrite prefix_cons in H. cbn [free_of] in F.
  apply andb_prop in F as [Fa Fp].
  destruct (Ascii.eqb a b) eqn:E; [|discriminate H].
  apply Ascii.eqb_eq in E as <-.
  destruct (split_cons c a s) as (x & xs & Es & ->).
  destruct (Ascii.eqb a c); [discriminate Fa|]. cbn [hd].
  rewrite prefix_cons, Ascii.eqb_refl.
  specialize (IH s Fp H). by rewrite Es in IH.
Qed.

Lemma contains_segment (c : ascii) (p s : string) :
  p ≠ "" → free_of c p = true → contains p s = true →
  existsb (contains p)
          (List.filter (fun x => (0 <? String.length x)%nat) (split c s)) = true.
Proof.
  intros N F. induction s as [|a s IH]; intros H.
  - destruct p; [done|discriminate H].
  - destruct (split_cons c a s) as (x & xs & Es & ->).
    rewrite contains_cons in H.
    destruct (Ascii.eqb a c) eqn:Eac.
    + rewrite <- Es.
      change (List.filter ?f ("" :: ?l)) with (List.filter f l).
      apply IH. destruct (String.prefix p (String a s)) eqn:P; [|done].
      destruct p as [|b p]; [done|]. rewrite prefix_cons in P.
      cbn [free_of] in F. apply andb_prop in F as [Fb _].
      destruct (Ascii.eqb b a) eqn:Eba; [|discriminate P].
      apply Ascii.eqb_eq in Eba as ->. by rewrite Eac in Fb.
    + cbn [List.filter String.length]. change (0 <? S _)%nat with true.
      cbn [existsb]. apply orb_true_iff.
      destruct (String.prefix p (String a s)) eqn:P.
      * left. pose proof (prefix_split_head c p (String a s) F P) as Q.
        destruct (split_cons c a s) as (x' & xs' & Es' & Q').
        rewrite Q', Eac in Q. cbn [hd] in Q.
        assert (x' = x) as -> by congruence.
        by rewrite contains_cons, Q.
      * specialize (IH H). rewrite Es in IH. cbn [List.filter] in IH.
        destruct (0 <? String.length x)%nat; [|by right].
        cbn [existsb] in IH. apply orb_true_iff in IH as [IH|IH]; [left|by right].
        rewrite contains_cons. by destruct (String.prefix p (String a x)).
Qed.



Lemma free_of_append (c : ascii) (s t : string) :
  free_of c s = true → free_of c t = true → free_of c (s +:+ t) = true.
Proof.
  intros Fs Ft. induction s as [|a s IH]; [done|].
  cbn [free_of] in Fs. apply andb_prop in Fs as [Fa Fs].
  rewrite append_cons. cbn [free_of]. rewrite Fa. by apply IH.
Qed.

(** ** Chart: [init] and the accessors *)

Lemma init_initialised (c : Chart.t) (d : Dom) :
  initialised c = true → Chart.init (c, d) = Some (c, d).
Proof.
  destruct c as [? ? ? ? ? ? ? ? ? svg ti su pa li g gx gy ? ? ? ?].
  unfold initialised; cbn.
  destruct svg, gx, gy, g, ti, su, li, pa; cbn; congruence.
Qed.

Lemma init_total (s : Chart.St) :
  ∃ c d, Chart.init s = Some (c, d) ∧ initialised c = true.
Proof.
  destruct s as [c d].
  destruct c as [? ? ? ? ? ? ? ? ? svg ti su pa li g gx gy ? ? ? ?].
  unfold Chart.init, initialised.
  (* svg *)
  assert (∃ svg' d', Chart.create_svg
            (Chart.mk _chart _w _h _margin _width _height _data _key_x _key_y
                      svg ti su pa li g gx gy _x _y _xAxis _yAxis, d)
          = (Chart.mk _chart _w _h _margin _width _height _data _key_x _key_y
                      (Some svg') ti su pa li g gx gy _x _y _xAxis _yAxis, d'))
    as (svg' & d1 & ->).
  { destruct svg; cbn -[Chart.translate inject_Z]; [eauto|].
    unfold append; destruct (select d); eauto. }
  clear svg d.
  assert (∃ gx' d', Chart.create_gX
            (Chart.mk _chart _w _h _margin _width _height _data _key_x _key_y
                      (Some svg') ti su pa li g gx gy _x _y _xAxis _yAxis, d1)
          = Some (Chart.mk _chart _w _h _margin _width _height _data _key_x _key_y
                      (Some svg') ti su pa li g (Some gx') gy _x _y _xAxis _yAxis, d'))
    as (gx' & d2 & ->).
  { destruct gx; cbn -[Chart.translate inject_Z]; [eauto|].
    unfold append; destruct svg'; eauto. }
  clear gx d1. cbn [mbind option_bind].
  assert (∃ gy' d', Chart.create_gY
            (Chart.mk _chart _w _h _margin _width _height _data _key_x _key_y
                      (Some svg') ti su pa li g (Some gx') gy _x _y _xAxis _yAxis, d2)
          = Some (Chart.mk _chart _w _h _margin _width _height _data _key_x _key_y
                      (Some svg') ti su pa li g (Some gx') (Some gy') _x _y _xAxis _yAxis, d'))
    as (gy' & d3 & ->).
  { destruct gy; cbn -[Chart.translate inject_Z]; [eauto|].
    unfold append; destruct svg'; eauto. }
  clear gy d2. cbn [mbind option_bind].
  assert (∃ g' d', Chart.create_g
            (Chart.mk _chart _w _h _margin _width _height _data _key_x _key_y
                      (Some svg') ti su pa li g (Some gx') (Some gy') _x _y _xAxis _yAxis, d3)
          = Some (Chart.mk _chart _w _h _margin _width _height _data _key_x _key_y
                      (Some svg') ti su pa li (Some g') (Some gx') (Some gy') _x _y _xAxis _yAxis, d'))
    as (g' & d4 & ->).
  { destruct g; cbn -[Chart.translate inject_Z]; [eauto|].
    unfold append; destruct svg'; eauto. }
  clear g d3. cbn [mbind option_bind].
  assert (∃ ti' d', Chart.create_title
            (Chart.mk _chart _w _h _margin _width _height _data _key_x _key_y
                      (Some svg') ti su pa li (Some g') (Some gx') (Some gy') _x _y _xAxis _yAxis, d4)
          = Some (Chart.mk _chart _w _h _margin _width _height _data _key_x _key_y
                      (Some svg') (Some ti') su pa li (Some g') (Some gx') (Some gy') _x _y _xAxis _yAxis, d'))
    as (ti' & d5 & ->).
  { destruct ti; cbn -[Chart.translate inject_Z Qplus Qdiv]; [eauto|].
    unfold append; destruct svg'; eauto. }
  clear ti d4. cbn [mbind option_bind].
  assert (∃ su' d', Chart.create_subtitle
            (Chart.mk _chart _w _h _margin _width _height _data _key_x _key_y
                      (Some svg') (Some ti') su pa li (Some g') (Some gx') (Some gy') _x _y _xAxis _yAxis, d5)
          = Some (Chart.mk _chart _w _h _margin _width _height _data _key_x _key_y
                      (Some svg') (Some ti') (Some su') pa li (Some g') (Some gx') (Some gy') _x _y _xAxis _yAxis, d'))
    as (su' & d6 & ->).
  { destruct su; cbn -[Chart.translate inject_Z Qplus Qdiv]; [eauto|].
    unfold append; destruct svg'; eauto. }
  clear su d5. cbn [mbind option_bind].
  unfold Chart.defineSettings, append.
  destruct li, pa, g'; cbn; do 2 eexists; (split; reflexivity).
Qed.

(** The texts of the three [transform] attributes of a fresh chart. *)
Lemma translate_values :
  Chart.translate ", " 80 380 = "translate(80, 380)"
  ∧ Chart.translate ", " 80 50 = "translate(80, 50)"
  ∧ Chart.translate "," 80 50 = "translate(80,50)".
Proof. vm_compute. done. Qed.

Lemma init_new (d : Dom) :
  ∃ c1 d1,
    Chart.init (Chart.new, d) = Some (c1, d1)
    ∧ initialised c1 = true
    ∧ container d1 = container d
    ∧ nodes d1 = (nodes d ++ match container d with
                             | Some host => first_nodes host (length (nodes d))
                             | None => []
                             end)%list.
Proof.
  destruct d as [[host|] ns];
    cbv -[app length Chart.translate inject_Z Qplus Qdiv];
    do 2 eexists; (split; [reflexivity|]); (split; [reflexivity|]);
    (split; [reflexivity|]).
  - rewrite <- !app_assoc, !length_app. cbn [app length].
    repeat f_equal; lia.
  - by rewrite app_nil_r.
Qed.

(** C7: [init()] never fails, and a second call changes neither the chart nor
    the document: every creation is guarded by its field, and all the fields
    are set after the first call.  On a chart fresh from the constructor the
    first call appends the svg element, the two axis groups, the graphics
    group, the title, the subtitle and the path (nothing, if the page has no
    chart container). *)
Theorem init_idempotent :
  (∀ s : Chart.St, ∃ s1, Chart.init s = Some s1 ∧ Chart.init s1 = Some s1)
  ∧ (∀ d : Dom, ∃ c1 d1 created,
        Chart.init (Chart.new, d) = Some (c1, d1)
        ∧ initialised c1 = true
        ∧ nodes d1 = (nodes d ++ created)%list
        ∧ List.map tag created =
            (if container d is Some _
             then ["svg"; "g"; "g"; "g"; "text"; "text"; "path"]
             else [])
        ∧ Chart.init (c1, d1) = Some (c1, d1)).
Proof.
  split.
  - intros s. destruct (init_total s) as (c & d & E & I).
    exists (c, d). split; [done|]. by apply init_initialised.
  - intros d. destruct (init_new d) as (c1 & d1 & E & I & _ & N).
    exists c1, d1. eexists. split; [done|]. split; [done|].
    split; [exact N|]. split; [by destruct (container d)|].
    by apply init_initialised.
Qed.

(** C8: [data], [key_x] and [key_y] called without argument return the
    stored value and change nothing; called with one argument [v] they store
    [v] in their own field, return the chart itself, and the call without
    argument that follows returns [v].  As the setter returns the chart, a
    second setter can be called on its result. *)
Theorem accessor_pattern (c : Chart.t) (v : JSVal) :
  (Chart.data [] c = (RetVal (Chart._data c), c)
   ∧ Chart.data [v] c = (RetThis, Chart.set_data v c)
   ∧ Chart.data [] (snd (Chart.data [v] c)) = (RetVal v, Chart.set_data v c))
  ∧ (Chart.key_x [] c = (RetVal (Chart._key_x c), c)
     ∧ Chart.key_x [v] c = (RetThis, Chart.set_key_x v c)
     ∧ Chart.key_x [] (snd (Chart.key_x [v] c)) = (RetVal v, Chart.set_key_x v c))
  ∧ (Chart.key_y [] c = (RetVal (Chart._key_y c), c)
     ∧ Chart.key_y [v] c = (RetThis, Chart.set_key_y v c)
     ∧ Chart.key_y [] (snd (Chart.key_y [v] c)) = (RetVal v, Chart.set_key_y v c))
  ∧ (∀ v' : JSVal,
       Controller.chained (Chart.key_x [v] c) (Chart.key_y [v'])
       = Some (RetThis, Chart.set_key_y v' (Chart.set_key_x v c))).
Proof. repeat split. Qed.

(** ** Chart: what [render] plots *)

Lemma insert_last {A : Type} (l : list A) (x y : A) :
  <[length l := y]> (l ++ [x])%list = (l ++ [y])%list.
Proof.
  rewrite insert_app_r_alt by lia. by rewrite Nat.sub_diag.
Qed.

Lemma collect_step_in (to_number : string → Chart.Num) (value : JSVal) (k : string)
    (acc : list Chart.Point) (d : gmap string string) :
  of_category value d = true →
  Chart.collect_step to_number value k (Some (acc, length acc)) d
  = Some ((acc ++ [point_of to_number k d])%list,
          length (acc ++ [point_of to_number k d])%list).
Proof.
  unfold of_category, Chart.collect_step. intros ->. cbn [mbind option_bind].
  rewrite list_lookup_middle by done. cbn [mbind option_bind].
  rewrite insert_last, list_lookup_middle by done. cbn [mbind option_bind].
  rewrite insert_last, length_app, Nat.add_1_r. done.
Qed.

Lemma collect_step_out (to_number : string → Chart.Num) (value : JSVal) (k : string)
    (acc : list Chart.Point) (i : nat) (d : gmap string string) :
  of_category value d = false →
  Chart.collect_step to_number value k (Some (acc, i)) d = Some (acc, i).
Proof. unfold of_category, Chart.collect_step. by intros ->. Qed.

Lemma collect_from (to_number : string → Chart.Num) (value : JSVal) (k : string)
    (data : list (gmap string string)) (acc : list Chart.Point) :
  foldl (Chart.collect_step to_number value k) (Some (acc, length acc)) data
  = Some ((acc ++ List.map (point_of to_number k)
                           (List.filter (of_category value) data))%list,
          (length acc + length (List.filter (of_category value) data))%nat).
Proof.
  revert acc. induction data as [|d data IH]; intros acc; cbn [foldl List.filter List.map].
  - by rewrite app_nil_r, Nat.add_0_r.
  - destruct (of_category value d) eqn:E.
    + rewrite collect_step_in, IH by done.
      rewrite <- app_assoc, length_app. cbn. do 2 f_equal. lia.
    + rewrite collect_step_out by done. apply IH.
Qed.

Lemma collect_spec (to_number : string → Chart.Num) (value : JSVal) (k : string)
    (data : list (gmap string string)) :
  Chart.collect to_number value k data
  = Some (List.map (point_of to_number k) (List.filter (of_category value) data),
          length (List.filter (of_category value) data)).
Proof. unfold Chart.collect. by rewrite (collect_from _ _ _ _ []). Qed.

Lemma dots_from {Px : Type} (ap : Chart.PointScale → JSVal → Px)
    (al : Chart.LinearScale → JSVal → Px) (value : JSVal) (k : string)
    (key_y : JSVal) (x : Chart.PointScale) (y : Chart.LinearScale)
    (data : list (gmap string string)) (acc : list (Chart.Dot Px)) :
  foldl (Chart.dots_step ap al value k key_y x y) acc data
  = (acc ++ List.map (fun d => Chart.mkDot (ap x (Chart.field d ""))
                                           (al y (Chart.field d k))
                                           (strict_eq (Chart.field d "") key_y))
                     (List.filter (of_category value) data))%list.
Proof.
  revert acc. induction data as [|d data IH]; intros acc; cbn [foldl List.filter List.map].
  - by rewrite app_nil_r.
  - rewrite IH. unfold Chart.dots_step, of_category.
    destruct (strict_eq _ value); [|done]. by rewrite <- app_assoc.
Qed.

(** [d3.min] over the column: a lower bound of every number in it. *)
Lemma d3_min_from (to_number : string → Chart.Num) (k : string)
    (data : list (gmap string string)) (m : Q) :
  ∃ lo, foldl (fun min d => Chart.d3_min_step min (Chart.plus to_number (Chart.field d k)))
              (Some m) data = Some lo
        ∧ (lo <= m)%Q
        ∧ ∀ row v, row ∈ data → Chart.plus to_number (Chart.field row k) = Chart.Fin v →
                   (lo <= v)%Q.
Proof.
  revert m. induction data as [|d data IH]; intros m; cbn [foldl].
  - exists m. split; [done|]. split; [apply Qle_refl|]. intros ? ? H. by apply elem_of_nil in H.
  - unfold Chart.d3_min_step at 2.
    destruct (Chart.plus to_number (Chart.field d k)) as [|v] eqn:E.
    + destruct (IH m) as (lo & -> & L & A). exists lo. repeat split; [done|].
      intros row w [->|H]%elem_of_cons R; [congruence | eauto].
    + destruct (Qle_bool m v) eqn:B; cbn [negb].
      * apply Qle_bool_iff in B. destruct (IH m) as (lo & -> & L & A).
        exists lo. repeat split; [done|].
        intros row w [->|H]%elem_of_cons R; [|eauto].
        rewrite E in R. injection R as <-. by eapply Qle_trans.
      * assert (v < m)%Q as Lt.
        { apply Qnot_le_lt. intros H%Qle_bool_iff. congruence. }
        destruct (IH v) as (lo & -> & L & A). exists lo.
        split; [done|]. split; [eapply Qle_trans; [done|by apply Qlt_le_weak]|].
        intros row w [->|H]%elem_of_cons R; [|eauto].
        rewrite E in R. by injection R as <-.
Qed.

Lemma d3_max_from (to_number : string → Chart.Num) (k : string)
    (data : list (gmap string string)) (m : Q) :
  ∃ hi, foldl (fun max d => Chart.d3_max_step max (Chart.plus to_number (Chart.field d k)))
              (Some m) data = Some hi
        ∧ (m <= hi)%Q
        ∧ ∀ row v, row ∈ data → Chart.plus to_number (Chart.field row k) = Chart.Fin v →
                   (v <= hi)%Q.
Proof.
  revert m. induction data as [|d data IH]; intros m; cbn [foldl].
  - exists m. split; [done|]. split; [apply Qle_refl|]. intros ? ? H. by apply elem_of_nil in H.
  - unfold Chart.d3_max_step at 2.
    destruct (Chart.plus to_number (Chart.field d k)) as [|v] eqn:E.
    + destruct (IH m) as (hi & -> & L & A). exists hi. repeat split; [done|].
      intros row w [->|H]%elem_of_cons R; [congruence | eauto].
    + destruct (Qle_bool v m) eqn:B; cbn [negb].
      * apply Qle_bool_iff in B. destruct (IH m) as (hi & -> & L & A).
        exists hi. repeat split; [done|].
        intros row w [->|H]%elem_of_cons R; [|eauto].
        rewrite E in R. injection R as <-. by eapply Qle_trans.
      * assert (m < v)%Q as Lt.
        { apply Qnot_le_lt. intros H%Qle_bool_iff. congruence. }
        destruct (IH v) as (hi & -> & L & A). exists hi.
        split; [done|]. split; [eapply Qle_trans; [by apply Qlt_le_weak|done]|].
        intros row w [->|H]%elem_of_cons R; [|eauto].
        rewrite E in R. by injection R as <-.
Qed.

(** Every number of the column, from whatever row, lies between the two
    bounds that [d3.min] and [d3.max] give. *)
Lemma d3_bounds (to_number : string → Chart.Num) (k : string)
    (data : list (gmap string string)) (row : gmap string string) (v : Q) :
  row ∈ data → Chart.plus to_number (Chart.field row k) = Chart.Fin v →
  ∃ lo hi, Chart.d3_min to_number data k = Some lo
           ∧ Chart.d3_max to_number data k = Some hi
           ∧ (lo <= v)%Q ∧ (v <= hi)%Q.
Proof.
  unfold Chart.d3_min, Chart.d3_max.
  induction data as [|d data IH]; intros H R; [by apply elem_of_nil in H|].
  cbn [foldl]. unfold Chart.d3_min_step at 2, Chart.d3_max_step at 2.
  destruct (Chart.plus to_number (Chart.field d k)) as [|w] eqn:E.
  - apply elem_of_cons in H as [->|H]; [congruence|]. by apply IH.
  - destruct (d3_min_from to_number k data w) as (lo & -> & L1 & A1).
    destruct (d3_max_from to_number k data w) as (hi & -> & L2 & A2).
    exists lo, hi. split; [done|]. split; [done|].
    apply elem_of_cons in H as [->|H].
    + rewrite E in R. injection R as <-. done.
    + split; eauto.
Qed.






(** The sample rows, drawn for Bayern: the bounds of the y scale come from
    all four rows (300 is a row of Berlin), the points from the two rows of
    Bayern. *)
Example render_sample :
  ∃ c' d' r,
    Chart.render sample_number sample_point sample_linear (VString "Bayern")
                 (Some sample_rows) sample_chart = ((c', d'), Some r)
    ∧ Chart.ls_domain <$> Chart._y c' = Some (Some (90 # 1), Some (300 # 1))
    ∧ Chart.ps_domain <$> Chart._x c' = Some [VString "WS 2015/16"; VString "SS 2016"]
    ∧ Chart.line_data r
      = [Chart.mkPoint (VString "WS 2015/16") (Some (Chart.Fin (120 # 1)));
         Chart.mkPoint (VString "SS 2016") (Some (Chart.Fin (90 # 1)))]
    ∧ List.map Chart.active (Chart.dot_data r) = [false; true].
Proof. do 3 eexists. split; [vm_compute; reflexivity|]. by vm_compute. Qed.

(** ** Controller: [update] *)

Lemma update_updated (w : Controller.World) :
  Controller.update w = Some (updated w).
Proof. reflexivity. Qed.

(** C1: [update] always completes.  With [n], [s] and [t] the values of the
    nationality, sex and semester controls, it passes the string made of [n],
    one space and [s] to the [key_x] setter, and [t] to the [key_y] setter, of
    the map and of the chart, which hold these values afterwards; then it has
    the map rendered. *)
Theorem update_composes_keys (w : Controller.World) :
  let cs := Controller.controls (Controller.doc w) in
  let n := Controller.val_selected "controls__nationality" cs in
  let s := Controller.val_selected "controls__sex" cs in
  let t := Controller.val_selected "controls__semester" cs in
  let key_x := VString (to_string n +:+ " " +:+ to_string s) in
  ∃ w',
    Controller.update w = Some w'
    ∧ Controller.chart w'
      = snd (Chart.key_y [t] (snd (Chart.key_x [key_x] (Controller.chart w))))
    ∧ Controller.map w'
      = snd (VisualizationMap.key_y [t]
               (snd (VisualizationMap.key_x [key_x] (Controller.map w))))
    ∧ Chart._key_x (Controller.chart w') = key_x
    ∧ Chart._key_y (Controller.chart w') = t
    ∧ VisualizationMap._key_x (Controller.map w') = key_x
    ∧ VisualizationMap._key_y (Controller.map w') = t
    ∧ Controller.doc w' = Controller.doc w
    ∧ Controller.log w' = Controller.MapRendered key_x t :: Controller.log w.
Proof. intros. exists (updated w). repeat split. Qed.

(** ** Controller: the answer to the request *)

Lemma initDeviceNotice_body (G : Controller.Global) (d : Controller.Document) :
  Controller.initDeviceNotice G d
  = Controller.set_body_class (Controller.body_class (Controller.initDeviceNotice G d)) d.
Proof.
  unfold Controller.initDeviceNotice.
  destruct (Controller.cookie_found _ _); by destruct d.
Qed.

Lemma initDeviceNotice_reads (G : Controller.Global) (d d' : Controller.Document) :
  Controller.cookies d' = Controller.cookies d →
  Controller.body_class d' = Controller.body_class d →
  Controller.body_class (Controller.initDeviceNotice G d')
  = Controller.body_class (Controller.initDeviceNotice G d).
Proof.
  unfold Controller.initDeviceNotice. intros -> E.
  destruct (Controller.cookie_found _ _); cbn; by rewrite E.
Qed.

Ltac world_simpl :=
  cbv beta iota zeta delta
    [Controller.on_doc Controller.set_map Controller.set_chart
     Controller.record Controller.closeFullscreen Controller.map_render
     Controller.set_manifest Controller.when_done Controller.set_title
     Controller.set_confirm_click Controller.set_controls Controller.set_data_info
     Controller.set_fullscreen Controller.set_body_class Controller.set_main_shown
     Controller.set_wrapper_shown Controller.set_cookies
     Controller.showPage Controller.hidePage
     Controller.doc Controller.data Controller.dataFile Controller.map
     Controller.chart Controller.log
     Controller.title Controller.cookies Controller.body_class
     Controller.wrapper_shown Controller.fullscreen Controller.data_info
     Controller.controls_html Controller.controls Controller.main_shown
     Controller.confirm_click
     Controller.ov_html Controller.ov_child_class Controller.ov_closing
     Controller.settled forallb andb fst snd mbind option_bind].

Lemma done_started (G : Controller.Global) (data : Controller.Manifest)
    (w : Controller.World) :
  Controller.done G data w = Some (started G data w).
Proof.
  unfold Controller.done, started, wired_controls, first_key_x, first_key_y.
  destruct w as [d ? ? m c l].
  rewrite update_updated. unfold updated, composed_key_x, composed_key_y.
  world_simpl.
  rewrite initDeviceNotice_body.
  rewrite (initDeviceNotice_reads G d) by done.
  world_simpl. cbn [foldl]. reflexivity.
Qed.

(** C2: when the request fails, the data-info region holds the fixed
    instructions (they open with the heading that the data is not available
    yet), the main content is hidden and the closing of the fullscreen region
    is queued; the page is shown.  Nothing is bound and no update runs: the
    map and the chart stay as they are and the only event is the closing. *)
Theorem failed_request_shows_instructions (G : Controller.Global) (w : Controller.World) :
  ∃ w',
    Controller.getDataInformation G Controller.Failed w = Some w'
    ∧ Controller.data_info (Controller.doc w') = Controller.fallback
    ∧ String.prefix "<h1>Data is not available yet.</h1>" Controller.fallback = true
    ∧ Controller.main_shown (Controller.doc w') = false
    ∧ Controller.ov_closing (Controller.fullscreen (Controller.doc w')) = true
    ∧ Controller.wrapper_shown (Controller.doc w') = true
    ∧ Controller.log w' = Controller.FullscreenClosed :: Controller.log w
    ∧ Controller.map w' = Controller.map w
    ∧ Controller.chart w' = Controller.chart w
    ∧ Controller.data w' = Controller.data w
    ∧ Controller.dataFile w' = Controller.dataFile w
    ∧ Controller.controls (Controller.doc w') = Controller.controls (Controller.doc w).
Proof.
  eexists. split; [reflexivity|]. destruct w as [d ? ? m c l].
  unfold Controller.always, Controller.fail. world_simpl.
  repeat split.
Qed.


(** The entry script on the sample page, for both answers: what has happened
    when the callbacks are through, latest event first, and what the page
    shows. *)
Example main_loaded :
  ∃ w svg,
    Controller.main sample_global (host_page "Students" [] []) sample_dom
                    (Controller.Loaded sample_manifest) = Some (w, svg)
    ∧ Controller.log w
      = [Controller.FullscreenClosed; Controller.Updated;
         Controller.MapRendered (VString "German m") (VString "WS 2015/16");
         Controller.ChartDataBound (VString "data/students.csv");
         Controller.MapDataBound (VString "data/students.csv")]
    ∧ Controller.title (Controller.doc w) = "Students: Growth"
    ∧ Controller.wrapper_shown (Controller.doc w) = true
    ∧ Controller.main_shown (Controller.doc w) = true
    ∧ List.map Controller.sel_name (Controller.controls (Controller.doc w))
      = ["nationality"; "sex"; "semester"]
    ∧ List.map tag (nodes svg) = ["div"; "svg"; "g"; "g"; "g"; "text"; "text"; "path"].
Proof. do 2 eexists. split; [vm_compute; reflexivity|]. by vm_compute. Qed.

Example main_failed :
  ∃ w svg,
    Controller.main sample_global (host_page "Students" [] []) sample_dom
                    Controller.Failed = Some (w, svg)
    ∧ Controller.log w = [Controller.FullscreenClosed]
    ∧ Controller.title (Controller.doc w) = "Students"
    ∧ Controller.wrapper_shown (Controller.doc w) = true
    ∧ Controller.main_shown (Controller.doc w) = false
    ∧ Controller.controls (Controller.doc w) = []
    ∧ Controller.data_info (Controller.doc w) = Controller.fallback.
Proof. do 2 eexists. split; [vm_compute; reflexivity|]. by vm_compute. Qed.

(** ** Controller: the document title *)




(** ** Controller: the filter controls *)






(** ** Controller: from the selections to the chart *)






(** ** Controller: the device notice *)













(** * Further properties *)

(** ** The views follow the selection *)

Lemma updates_spec (n : nat) (w : Controller.World) :
  ∃ w', Controller.updates n w = Some w'
        ∧ Controller.doc w' = Controller.doc w
        ∧ (0 < n → in_step w')%nat
        ∧ (n = 0%nat → w' = w).
Proof.
  revert w. induction n as [|n IH]; intros w; cbn [Controller.updates].
  - exists w. split; [done|]. split; [done|]. split; [lia|done].
  - rewrite update_updated. cbn [mbind option_bind].
    destruct (IH (updated w)) as (w' & E & D & S & Z).
    exists w'. split; [done|]. split; [by rewrite D|]. split; [|lia].
    intros _. destruct n as [|n]; [|apply S; lia].
    rewrite (Z eq_refl). by destruct w.
Qed.

Lemma choose_wired (name v : string) (cs cs' : list Controller.Select) (h : nat) :
  Controller.choose name v cs = Some (cs', h) →
  wired cs = true → wired cs' = true ∧ (0 < h)%nat.
Proof.
  revert cs' h. induction cs as [|e cs IH]; intros cs' h; cbn [Controller.choose];
    [discriminate|].
  unfold wired in *. cbn [forallb]. intros H W.
  apply andb_prop in W as [We W].
  destruct (String.eqb (Controller.sel_name e) name).
  - destruct (Controller.index_of v (Controller.sel_options e)) as [i|]; [|discriminate H].
    destruct (i =? Controller.sel_selected e)%nat; [discriminate H|].
    injection H as <- <-. cbn [forallb Controller.sel_change].
    rewrite We, W. split; [done|]. by apply Nat.ltb_lt.
  - destruct (Controller.choose name v cs) as [[cs0 h0]|]; [|discriminate H].
    cbn in H. injection H as <- <-. destruct (IH cs0 h0 eq_refl W) as [W' ?].
    cbn [forallb]. by rewrite We, W'.
Qed.

Lemma user_selects_in_step (name v : string) (w : Controller.World) :
  wired (Controller.controls (Controller.doc w)) = true → in_step w →
  ∃ w', Controller.user_selects name v w = Some w'
        ∧ wired (Controller.controls (Controller.doc w')) = true
        ∧ in_step w'.
Proof.
  intros W I. unfold Controller.user_selects.
  destruct (Controller.choose name v (Controller.controls (Controller.doc w)))
    as [[cs h]|] eqn:C; [|by exists w].
  destruct (choose_wired _ _ _ _ _ C W) as [W' H].
  destruct (updates_spec h
              (Controller.on_doc
                 (fun d => Controller.set_controls (Controller.controls_html d) cs d) w))
    as (w' & E & D & S & _).
  exists w'. split; [done|]. split; [|by apply S].
  rewrite D. by destruct w as [[] ? ? ? ? ?].
Qed.

Lemma selections_in_step (l : list (string * string)) (w : Controller.World) :
  wired (Controller.controls (Controller.doc w)) = true → in_step w →
  ∃ w', selections l w = Some w'
        ∧ wired (Controller.controls (Controller.doc w')) = true
        ∧ in_step w'.
Proof.
  revert w. induction l as [|[name v] l IH]; intros w W I; cbn [selections].
  - by exists w.
  - destruct (user_selects_in_step name v w W I) as (w1 & -> & W1 & I1).
    cbn [mbind option_bind]. by apply IH.
Qed.

Lemma wired_controls_wired (data : Controller.Manifest) :
  wired (wired_controls data) = true.
Proof.
  unfold wired_controls, Controller.controls_elements, Controller.attributes.
  cbn [foldl omap list_omap].
  destruct (Controller.m_attributes data !! "nationality") as [ns|];
    destruct (Controller.m_attributes data !! "sex") as [ss|];
    destruct (Controller.m_attributes data !! "semester") as [ts|];
    vm_compute; reflexivity.
Qed.

Lemma started_in_step (G : Controller.Global) (data : Controller.Manifest)
    (w : Controller.World) :
  in_step (started G data w).
Proof. by destruct w as [[] ? ? [] [] ?]. Qed.

(** X1: after a successful load, whatever the user chooses in the controls,
    and in whatever order, every step completes and both views hold exactly
    the keys composed from the controls as they stand: each control carries
    a [change] handler that runs [update]. *)
Theorem views_follow_selection (G : Controller.Global) (data : Controller.Manifest)
    (w : Controller.World) (l : list (string * string)) :
  ∃ w1 w',
    Controller.done G data w = Some w1
    ∧ selections l w1 = Some w'
    ∧ in_step w'
    ∧ wired (Controller.controls (Controller.doc w')) = true
    ∧ VisualizationMap._key_x (Controller.map w') = Chart._key_x (Controller.chart w')
    ∧ VisualizationMap._key_y (Controller.map w') = Chart._key_y (Controller.chart w').
Proof.
  exists (started G data w).
  destruct (selections_in_step l (started G data w)) as (w' & E & W & I).
  { destruct w as [[] ? ? ? ? ?]. apply wired_controls_wired. }
  { apply started_in_step. }
  exists w'. split; [apply done_started|]. split; [done|]. split; [done|].
  split; [done|]. destruct I as (A & B & C & D). by rewrite A, B, C, D.
Qed.



(** ** A choice takes effect *)

















(** ** Chart: more on [render] *)

(** A completed render, in full. *)
Lemma render_state (to_number : string → Chart.Num) (Px : Type)
    (ap : Chart.PointScale → JSVal → Px) (al : Chart.LinearScale → JSVal → Px)
    (value : JSVal) (data : list (gmap string string))
    (c : Chart.t) (d : Dom) (k : string) :
  ready c = true → Chart._key_x c = VString k →
  Chart.render to_number ap al value (Some data) (c, d)
  = ((rendered_chart to_number value k data c, rendered_dom value k c d),
     Some (Chart.mkDrawn
             (List.map (point_of to_number k) (List.filter (of_category value) data))
             (List.map (fun row =>
                          Chart.mkDot
                            (ap (x_scale_of value data c) (Chart.field row ""))
                            (al (y_scale_of to_number k data c) (Chart.field row k))
                            (strict_eq (Chart.field row "") (Chart._key_y c)))
                       (List.filter (of_category value) data)))).
Proof.
  destruct c as [? ? ? ? ? ? ? kx ky svg ti su pa li g gx gy ? ? xa ya].
  unfold ready; cbn [Chart._gX Chart._gY Chart._g Chart._title
    Chart._subtitle Chart._line Chart._key_x Chart._key_y].
  destruct ti, su, gx, gy, g, li; cbn [holds andb]; rewrite ?andb_false_r;
    try discriminate.
  intros _ ->. unfold Chart.render, rendered_chart, rendered_dom, x_scale_of, y_scale_of.
  cbn [Chart._title Chart._subtitle Chart._key_x].
  rewrite collect_spec.
  cbn [Chart.set_scales Chart._gX Chart._gY Chart._g Chart._line Chart._x Chart._y
       Chart._xAxis Chart._yAxis Chart._key_y Chart._width Chart._height].
  rewrite dots_from, List.map_map. cbn [app Chart.pt_x point_of].
  by destruct xa, ya.
Qed.












(** X7: a render of a chart whose [key_x] is not a string (no update has
    set it yet) ends in a TypeError at the subtitle: by then it has written
    the title, if there is one; the chart is as before and nothing is drawn.
    A render whose request is rejected does nothing at all. *)
Theorem render_without_key (to_number : string → Chart.Num) (Px : Type)
    (ap : Chart.PointScale → JSVal → Px) (al : Chart.LinearScale → JSVal → Px)
    (value : JSVal) (data : list (gmap string string)) (c : Chart.t) (d : Dom) :
  is_string (Chart._key_x c) = false →
  Chart.render to_number ap al value (Some data) (c, d)
  = ((c, match Chart._title c with
         | Some title => set_text title (text_of value) d
         | None => d
         end), None)
  ∧ Chart.render to_number ap al value None (c, d) = ((c, d), None).
Proof.
  destruct c as [? ? ? ? ? ? ? kx ky svg ti su pa li g gx gy ? ? xa ya].
  cbn [Chart._key_x Chart._title]. unfold Chart.render.
  cbn [Chart._title Chart._subtitle Chart._key_x].
  intros K. split; [|done].
  destruct ti; [|done]. destruct su, kx; try done; discriminate K.
Qed.

Lemma render_without_key_witness :
  ∃ c d,
    Chart.init (Chart.new, sample_dom) = Some (c, d)
    ∧ Chart.render sample_number sample_point sample_linear (VString "Bayern")
                   (Some sample_rows) (c, d)
      = ((c, set_text (Some 5%nat) "Bayern" d), None).
Proof.
  destruct (Chart.init (Chart.new, sample_dom)) as [[c d]|] eqn:E;
    [|vm_compute in E; discriminate E].
  exists c, d. split; [done|].
  destruct (render_without_key sample_number JSVal sample_point sample_linear
              (VString "Bayern") sample_rows c d) as [R _].
  - vm_compute in E. by injection E as <- <-.
  - rewrite R. vm_compute in E. by injection E as <- <-.
Defined.

Lemma fold_nan (to_number : string → Chart.Num) (k : string)
    (data : list (gmap string string)) :
  (∀ row, row ∈ data → Chart.plus to_number (Chart.field row k) = Chart.NaN) →
  Chart.d3_min to_number data k = None ∧ Chart.d3_max to_number data k = None.
Proof.
  unfold Chart.d3_min, Chart.d3_max.
  induction data as [|row data IH]; intros A; [done|]. cbn [foldl].
  rewrite (A row) by (apply elem_of_cons; by left).
  apply IH. intros r H. apply A. apply elem_of_cons. by right.
Qed.

(** X8: when no row has the column that [key_x] names, a ready chart still
    renders to its end: both bounds of the y scale are [undefined], and every
    point of the line has the row id of its row and [NaN] as its number. *)
Theorem render_missing_column (to_number : string → Chart.Num) (Px : Type)
    (ap : Chart.PointScale → JSVal → Px) (al : Chart.LinearScale → JSVal → Px)
    (value : JSVal) (data : list (gmap string string))
    (c : Chart.t) (d : Dom) (k : string) :
  ready c = true → Chart._key_x c = VString k →
  (∀ row, row ∈ data → row !! k = None) →
  ∃ c' d' r,
    Chart.render to_number ap al value (Some data) (c, d) = ((c', d'), Some r)
    ∧ Chart.ls_domain <$> Chart._y c' = Some (None, None)
    ∧ Chart.line_data r
      = List.map (fun row => Chart.mkPoint (Chart.field row "") (Some Chart.NaN))
                 (List.filter (of_category value) data).
Proof.
  intros R K M. rewrite (render_state _ _ _ _ _ _ _ _ k R K).
  do 3 eexists. split; [reflexivity|].
  assert (∀ row, row ∈ data → Chart.plus to_number (Chart.field row k) = Chart.NaN) as N.
  { intros row H. unfold Chart.field. by rewrite (M row H). }
  destruct (fold_nan to_number k data N) as (Lo & Hi). split.
  - destruct c. cbn. unfold y_scale_of. by rewrite Lo, Hi.
  - cbn [Chart.line_data]. apply List.map_ext_in.
    intros row H. apply filter_In in H as [H _].
    unfold point_of. rewrite N; [done|]. by apply list_elem_of_In.
Qed.

Lemma render_missing_column_witness :
  ∃ c' d' r,
    Chart.render sample_number sample_point sample_linear (VString "Bayern")
                 (Some sample_rows)
                 (Chart.set_key_x (VString "Foreign m") (fst sample_chart), snd sample_chart)
    = ((c', d'), Some r)
    ∧ Chart.ls_domain <$> Chart._y c' = Some (None, None)
    ∧ Chart.line_data r
      = [Chart.mkPoint (VString "WS 2015/16") (Some Chart.NaN);
         Chart.mkPoint (VString "SS 2016") (Some Chart.NaN)].
Proof.
  destruct (render_missing_column sample_number JSVal sample_point sample_linear
              (VString "Bayern") sample_rows
              (Chart.set_key_x (VString "Foreign m") (fst sample_chart))
              (snd sample_chart) "Foreign m")
    as (c' & d' & r & E & Y & P).
  - vm_compute. reflexivity.
  - vm_compute. reflexivity.
  - apply Forall_forall.
    apply (bool_decide_unpack
             (Forall (fun row : gmap string string => row !! "Foreign m" = None)
                     sample_rows)).
    vm_compute. exact I.
  - exists c', d', r. split; [done|]. split; [done|]. rewrite P. by vm_compute.
Defined.

(** ** Chart: the bounds of the y scale *)

Lemma d3_min_attained (to_number : string → Chart.Num) (k : string)
    (data : list (gmap string string)) (acc : option Q) (lo : Q) :
  foldl (fun min d => Chart.d3_min_step min (Chart.plus to_number (Chart.field d k)))
        acc data = Some lo →
  acc = Some lo
  ∨ ∃ row, row ∈ data ∧ Chart.plus to_number (Chart.field row k) = Chart.Fin lo.
Proof.
  revert acc. induction data as [|d data IH]; intros acc; cbn [foldl]; [by left|].
  intros H. destruct (IH _ H) as [E|(row & Hr & Er)].
  - unfold Chart.d3_min_step in E.
    destruct (Chart.plus to_number (Chart.field d k)) as [|v] eqn:P; [by left|].
    destruct acc as [m|].
    + destruct (negb (Qle_bool m v)); [|by left].
      injection E as ->. right. exists d. split; [apply elem_of_cons; by left|done].
    + injection E as ->. right. exists d. split; [apply elem_of_cons; by left|done].
  - right. exists row. split; [apply elem_of_cons; by right|done].
Qed.

Lemma d3_max_attained (to_number : string → Chart.Num) (k : string)
    (data : list (gmap string string)) (acc : option Q) (hi : Q) :
  foldl (fun max d => Chart.d3_max_step max (Chart.plus to_number (Chart.field d k)))
        acc data = Some hi →
  acc = Some hi
  ∨ ∃ row, row ∈ data ∧ Chart.plus to_number (Chart.field row k) = Chart.Fin hi.
Proof.
  revert acc. induction data as [|d data IH]; intros acc; cbn [foldl]; [by left|].
  intros H. destruct (IH _ H) as [E|(row & Hr & Er)].
  - unfold Chart.d3_max_step in E.
    destruct (Chart.plus to_number (Chart.field d k)) as [|v] eqn:P; [by left|].
    destruct acc as [m|].
    + destruct (negb (Qle_bool v m)); [|by left].
      injection E as ->. right. exists d. split; [apply elem_of_cons; by left|done].
    + injection E as ->. right. exists d. split; [apply elem_of_cons; by left|done].
  - right. exists row. split; [apply elem_of_cons; by right|done].
Qed.

(** X9: the bounds that [d3.min] and [d3.max] give the y scale are numbers
    of rows: each bound is the number some row has in the column, the lower
    one is not above the upper one, and a bound is [undefined] exactly when
    no row has a number there, in which case the other one is [undefined]
    too. *)
Theorem y_bounds_attained (to_number : string → Chart.Num) (k : string)
    (data : list (gmap string string)) :
  (∀ lo, Chart.d3_min to_number data k = Some lo →
         ∃ row, row ∈ data ∧ Chart.plus to_number (Chart.field row k) = Chart.Fin lo)
  ∧ (∀ hi, Chart.d3_max to_number data k = Some hi →
           ∃ row, row ∈ data ∧ Chart.plus to_number (Chart.field row k) = Chart.Fin hi)
  ∧ (∀ lo hi, Chart.d3_min to_number data k = Some lo →
              Chart.d3_max to_number data k = Some hi → (lo <= hi)%Q)
  ∧ (Chart.d3_min to_number data k = None
     ↔ ∀ row, row ∈ data → Chart.plus to_number (Chart.field row k) = Chart.NaN)
  ∧ (Chart.d3_max to_number data k = None ↔ Chart.d3_min to_number data k = None).
Proof.
  assert (∀ lo, Chart.d3_min to_number data k = Some lo →
            ∃ row, row ∈ data ∧ Chart.plus to_number (Chart.field row k) = Chart.Fin lo)
    as A.
  { intros lo H. by destruct (d3_min_attained _ _ _ _ _ H). }
  assert (∀ hi, Chart.d3_max to_number data k = Some hi →
            ∃ row, row ∈ data ∧ Chart.plus to_number (Chart.field row k) = Chart.Fin hi)
    as B.
  { intros hi H. by destruct (d3_max_attained _ _ _ _ _ H). }
  assert (Chart.d3_min to_number data k = None
          ↔ ∀ row, row ∈ data → Chart.plus to_number (Chart.field row k) = Chart.NaN)
    as N.
  { split.
    - intros E row H. destruct (Chart.plus to_number (Chart.field row k)) as [|v] eqn:P;
        [done|].
      destruct (d3_bounds to_number k data row v H P) as (lo & hi & E' & _).
      congruence.
    - intros H. by apply fold_nan. }
  split; [exact A|]. split; [exact B|]. split; [|split; [exact N|]].
  - intros lo hi L H. destruct (A lo L) as (row & Hr & P).
    destruct (d3_bounds to_number k data row lo Hr P) as (lo' & hi' & L' & H' & _ & Le).
    congruence.
  - split.
    + intros E. apply N. intros row H.
      destruct (Chart.plus to_number (Chart.field row k)) as [|v] eqn:P; [done|].
      destruct (d3_bounds to_number k data row v H P) as (lo & hi & _ & E' & _).
      congruence.
    + intros E. apply fold_nan. by apply N.
Qed.

(** ** Chart: the texts that [render] writes *)

Lemma substring_all (s : string) : String.substring 0 (String.length s) s = s.
Proof. induction s as [|a s IH]; [done|]. cbn. by rewrite IH. Qed.

Lemma replace_first_cons (pat rep : string) (b : ascii) (r : string) :
  Chart.replace_first pat rep (String b r)
  = if String.prefix pat (String b r)
    then rep +:+ String.substring (String.length pat)
                                  (String.length (String b r) - String.length pat)
                                  (String b r)
    else String b (Chart.replace_first pat rep r).
Proof. reflexivity. Qed.

Lemma replace_space_here (rep rest : string) :
  Chart.replace_first " " rep (String " " rest) = rep +:+ rest.
Proof.
  rewrite replace_first_cons, prefix_cons, prefix_nil.
  change (Ascii.eqb " " " ") with true. cbn [String.length Nat.sub String.substring].
  by rewrite Nat.sub_0_r, substring_all.
Qed.

Lemma replace_space_skip (rep : string) (b : ascii) (r : string) :
  Ascii.eqb b " " = false →
  Chart.replace_first " " rep (String b r)
  = String b (Chart.replace_first " " rep r).
Proof.
  intros E. rewrite replace_first_cons, prefix_cons.
  rewrite Ascii.eqb_sym, E. done.
Qed.

(** X10: the subtitle is the key with its first space, and only that one,
    turned into a bar between two spaces: a key made of a nationality
    without a space, a space and the rest shows as the nationality, the bar
    and the rest; a key without any space shows as it is. *)
Theorem subtitle_splits_at_first_space (a rest : string) :
  free_of " " a = true →
  Chart.replace_first " " " | " (a +:+ " " +:+ rest) = a +:+ " | " +:+ rest
  ∧ Chart.replace_first " " " | " a = a.
Proof.
  induction a as [|b a IH]; intros F.
  - split; [|done]. exact (replace_space_here " | " rest).
  - cbn [free_of] in F. apply andb_prop in F as [Fb F].
    apply negb_true_iff in Fb. destruct (IH F) as (I1 & I2).
    rewrite !(append_cons b a), !replace_space_skip by done. by rewrite I1, I2.
Qed.

Lemma subtitle_splits_at_first_space_witness :
  Chart.replace_first " " " | " "Non German f" = "Non | German f"
  ∧ Chart.replace_first " " " | " "Non" = "Non".
Proof.
  apply (subtitle_splits_at_first_space "Non" "German f"). reflexivity.
Defined.



(** X12: on a page without a chart container, [init] of a fresh chart
    creates no node, and still every later method call works on the empty
    selections: a render with [key_x] set runs to its end, computes the
    points of the line, and leaves the document exactly as it was. *)
Theorem no_container_no_nodes (to_number : string → Chart.Num) (Px : Type)
    (ap : Chart.PointScale → JSVal → Px) (al : Chart.LinearScale → JSVal → Px)
    (value : JSVal) (data : list (gmap string string))
    (ns : list Node) (k : string) :
  let d := mkDom None ns in
  ∃ c1 c2 r,
    Chart.init (Chart.new, d) = Some (c1, d)
    ∧ initialised c1 = true
    ∧ Chart.render to_number ap al value (Some data)
                   (Chart.set_key_x (VString k) c1, d) = ((c2, d), Some r)
    ∧ Chart.line_data r
      = List.map (point_of to_number k) (List.filter (of_category value) data).
Proof.
  intros d. eexists. do 2 eexists.
  split; [cbv -[Chart.translate inject_Z Qplus Qdiv]; reflexivity|].
  split; [reflexivity|].
  rewrite (render_state _ _ _ _ _ _ _ _ k); [|reflexivity|reflexivity].
  split; reflexivity.
Qed.

(** ** Chart: what [init] adds *)

Lemma grown_refl (s : Chart.St) : grown 0 s s.
Proof.
  destruct s as [c d]. unfold grown, kept. cbn [fst snd].
  split; [by destruct c|]. repeat (split; [done|]).
  exists []. by rewrite app_nil_r.
Qed.

Lemma grown_mono (n m : nat) (s s' : Chart.St) :
  (n ≤ m)%nat → grown n s s' → grown m s s'.
Proof.
  unfold grown. intros L (E & A & B & C & D & F & G & H & I & K & x & N & Lx).
  repeat (split; [done|]). exists x. split; [done|lia].
Qed.

Lemma grown_trans (n m : nat) (s1 s2 s3 : Chart.St) :
  grown n s1 s2 → grown m s2 s3 → grown (n + m) s1 s3.
Proof.
  destruct s1 as [c1 d1], s2 as [c2 d2], s3 as [c3 d3]. unfold grown, kept.
  cbn [fst snd].
  intros (E1 & A1 & B1 & C1 & D1 & F1 & G1 & H1 & I1 & K1 & x1 & N1 & L1)
         (E2 & A2 & B2 & C2 & D2 & F2 & G2 & H2 & I2 & K2 & x2 & N2 & L2).
  split.
  { clear -E1 E2. destruct c1, c2, c3. unfold Chart.set_elements in *.
    cbn in E1, E2 |- *. injection E1. injection E2. intros. by subst. }
  repeat (split; [by eauto|]). split; [congruence|].
  exists (x1 ++ x2)%list. rewrite N2, N1, <- app_assoc, length_app.
  split; [done|lia].
Qed.

Lemma append_grows (sel : Selection) (t : string) (a : list (string * AttrVal))
    (st : list (string * string)) (d : Dom) :
  container (append sel t a st d).2 = container d
  ∧ ∃ extra, nodes (append sel t a st d).2 = (nodes d ++ extra)%list
             ∧ (length extra ≤ 1)%nat.
Proof.
  destruct sel as [p|]; cbn.
  - split; [done|]. eexists. split; [done|]. cbn. lia.
  - split; [done|]. exists []. rewrite app_nil_r. split; [done|]. cbn. lia.
Qed.

Ltac grown_step c d field :=
  destruct c as [? ? ? ? ? ? ? ? ? svg ti su pa li g gx gy ? ? ? ?];
  cbn [Chart._svg fst] in *;
  match goal with H : is_Some _ |- _ => destruct H as (s0 & ->) end;
  cbn -[append Chart.translate inject_Z Qplus Qdiv];
  destruct field; cbn -[append Chart.translate inject_Z Qplus Qdiv];
  [eexists; split; [reflexivity|];
   split; [apply (grown_mono 0); [lia|apply grown_refl]|cbn; eauto]|];
  match goal with
  | |- context [append ?sel ?t ?a ?st d] =>
      destruct (append_grows sel t a st d) as (K & x & N & L);
      destruct (append sel t a st d) as [e d'] eqn:E
  end;
  cbn [snd] in *; eexists; split; [reflexivity|];
  split; [|cbn; eauto];
  unfold grown, kept; cbn;
  split; [reflexivity|]; repeat (split; [by (done || discriminate)|]); eauto.

Lemma create_svg_grows (s : Chart.St) :
  grown 1 s (Chart.create_svg s) ∧ is_Some (Chart._svg (fst (Chart.create_svg s))).
Proof.
  destruct s as [c d].
  destruct c as [? ? ? ? ? ? ? ? ? svg ti su pa li g gx gy ? ? ? ?].
  cbn -[append select Chart.translate inject_Z Qplus Qdiv].
  destruct svg as [s0|]; cbn -[append select Chart.translate inject_Z Qplus Qdiv].
  - split; [|eauto]. unfold grown, kept. cbn. split; [done|].
    repeat (split; [done|]). exists []. rewrite app_nil_r. split; [done|]. cbn. lia.
  - match goal with
    | |- context [append ?sel ?t ?a ?st d] =>
        destruct (append_grows sel t a st d) as (K & x & N & L);
        destruct (append sel t a st d) as [e d'] eqn:E
    end.
    cbn [snd] in *. split; [|cbn; eauto].
    unfold grown, kept. cbn. split; [done|].
    repeat (split; [by (done || discriminate)|]). eauto.
Qed.

Lemma create_gX_grows (s : Chart.St) :
  is_Some (Chart._svg (fst s)) →
  ∃ s', Chart.create_gX s = Some s' ∧ grown 1 s s' ∧ is_Some (Chart._gX (fst s')).
Proof. destruct s as [c d]. intros H. grown_step c d gx. Qed.

Lemma create_gY_grows (s : Chart.St) :
  is_Some (Chart._svg (fst s)) →
  ∃ s', Chart.create_gY s = Some s' ∧ grown 1 s s' ∧ is_Some (Chart._gY (fst s')).
Proof. destruct s as [c d]. intros H. grown_step c d gy. Qed.

Lemma create_g_grows (s : Chart.St) :
  is_Some (Chart._svg (fst s)) →
  ∃ s', Chart.create_g s = Some s' ∧ grown 1 s s' ∧ is_Some (Chart._g (fst s')).
Proof. destruct s as [c d]. intros H. grown_step c d g. Qed.

Lemma create_title_grows (s : Chart.St) :
  is_Some (Chart._svg (fst s)) →
  ∃ s', Chart.create_title s = Some s' ∧ grown 1 s s' ∧ is_Some (Chart._title (fst s')).
Proof. destruct s as [c d]. intros H. grown_step c d ti. Qed.

Lemma create_subtitle_grows (s : Chart.St) :
  is_Some (Chart._svg (fst s)) →
  ∃ s', Chart.create_subtitle s = Some s' ∧ grown 1 s s'
        ∧ is_Some (Chart._subtitle (fst s')).
Proof. destruct s as [c d]. intros H. grown_step c d su. Qed.

Lemma defineSettings_grows (s : Chart.St) :
  is_Some (Chart._g (fst s)) →
  ∃ s', Chart.defineSettings s = Some s' ∧ grown 1 s s'.
Proof.
  destruct s as [c d].
  destruct c as [? ? ? ? ? ? ? ? ? svg ti su pa li g gx gy ? ? ? ?].
  cbn [Chart._g fst]. intros (g0 & ->). unfold Chart.defineSettings.
  destruct li, pa; cbn -[append];
    try (eexists; split; [reflexivity|]; unfold grown, kept; cbn;
         split; [reflexivity|]; repeat (split; [by (done || discriminate)|]);
         exists []; rewrite app_nil_r; split; [done|cbn; lia]).
  - destruct (append_grows g0 "path" [] [] d) as (K & x & N & L).
    destruct (append g0 "path" [] [] d) as [e d'] eqn:E. cbn [snd] in *.
    eexists. split; [reflexivity|]. unfold grown, kept. cbn.
    split; [reflexivity|]. repeat (split; [by (done || discriminate)|]). eauto.
  - destruct (append_grows g0 "path" [] [] d) as (K & x & N & L).
    destruct (append g0 "path" [] [] d) as [e d'] eqn:E. cbn [snd] in *.
    eexists. split; [reflexivity|]. unfold grown, kept. cbn.
    split; [reflexivity|]. repeat (split; [by (done || discriminate)|]). eauto.
Qed.

Lemma grown_keeps (n : nat) (s s' : Chart.St) :
  grown n s s' →
  (is_Some (Chart._svg (fst s)) → is_Some (Chart._svg (fst s')))
  ∧ (is_Some (Chart._g (fst s)) → is_Some (Chart._g (fst s'))).
Proof.
  unfold grown, kept. intros (_ & A & _ & _ & _ & _ & G & _).
  split; intros (x & E); eauto.
Qed.

Lemma init_grows (s : Chart.St) :
  ∃ s', Chart.init s = Some s' ∧ grown 7 s s' ∧ initialised (fst s') = true.
Proof.
  destruct (init_total s) as (c0 & d0 & E0 & I0).
  destruct (create_svg_grows s) as (G0 & S0). unfold Chart.init in *.
  cbv zeta in *.
  destruct (create_gX_grows _ S0) as (s1 & Q1 & G1 & _). rewrite Q1 in *. cbn [mbind option_bind] in *.
  pose proof (proj1 (grown_keeps _ _ _ G1) S0) as S1.
  destruct (create_gY_grows _ S1) as (s2 & Q2 & G2 & _). rewrite Q2 in *. cbn [mbind option_bind] in *.
  pose proof (proj1 (grown_keeps _ _ _ G2) S1) as S2.
  destruct (create_g_grows _ S2) as (s3 & Q3 & G3 & T3). rewrite Q3 in *. cbn [mbind option_bind] in *.
  pose proof (proj1 (grown_keeps _ _ _ G3) S2) as S3.
  destruct (create_title_grows _ S3) as (s4 & Q4 & G4 & _). rewrite Q4 in *. cbn [mbind option_bind] in *.
  pose proof (proj1 (grown_keeps _ _ _ G4) S3) as S4.
  pose proof (proj2 (grown_keeps _ _ _ G4) T3) as T4.
  destruct (create_subtitle_grows _ S4) as (s5 & Q5 & G5 & _). rewrite Q5 in *. cbn [mbind option_bind] in *.
  pose proof (proj2 (grown_keeps _ _ _ G5) T4) as T5.
  destruct (defineSettings_grows _ T5) as (s6 & E6 & G6).
  exists s6. split; [done|]. split.
  - pose proof (grown_trans _ _ _ _ _ G0 G1) as H1.
    pose proof (grown_trans _ _ _ _ _ H1 G2) as H2.
    pose proof (grown_trans _ _ _ _ _ H2 G3) as H3.
    pose proof (grown_trans _ _ _ _ _ H3 G4) as H4.
    pose proof (grown_trans _ _ _ _ _ H4 G5) as H5.
    exact (grown_trans _ _ _ _ _ H5 G6).
  - rewrite E6 in E0. injection E0 as ->. exact I0.
Qed.

(** X13: [init] works on a chart in any state: it always completes, fills
    in the references that are not set and keeps those that are, appends at
    most seven nodes after the nodes the document has, and leaves the data,
    the keys, the geometry and the scales of the chart alone. *)
Theorem init_only_adds (s : Chart.St) :
  ∃ s', Chart.init s = Some s' ∧ grown 7 s s' ∧ initialised (fst s') = true.
Proof.
  apply init_grows.
Qed.

(** ** The entry script and the chart *)






(** ** The device notice, confirmed again *)

Lemma put_cookie_again (n v : string) (jar : list (string * string)) :
  Controller.put_cookie n v (Controller.put_cookie n v jar) = Controller.put_cookie n v jar.
Proof.
  induction jar as [|[n' v'] jar IH]; cbn [Controller.put_cookie].
  - by rewrite String.eqb_refl.
  - destruct (String.eqb n' n) eqn:E; cbn [Controller.put_cookie].
    + by rewrite String.eqb_refl.
    + by rewrite E, IH.
Qed.



Lemma addClass_again (c : string) (l : list string) :
  Controller.addClass c (Controller.addClass c l) = Controller.addClass c l.
Proof.
  unfold Controller.addClass. destruct (bool_decide (c ∈ l)) eqn:B.
  - by rewrite B.
  - rewrite bool_decide_eq_true_2; [done|]. apply elem_of_app. right.
    by apply list_elem_of_singleton.
Qed.


(** X15: [hideDeviceNotice] can be run again at no cost: a second run changes
    nothing, so the clicks on the confirm button pile up neither cookies nor
    classes.  One run keeps every class that [body] has, in its order, and
    adds the class of the notice at the end only if [body] lacks it. *)
Theorem hideDeviceNotice_again (G : Controller.Global) (d : Controller.Document) :
  Controller.hideDeviceNotice G (Controller.hideDeviceNotice G d)
  = Controller.hideDeviceNotice G d
  ∧ Controller.body_class (Controller.hideDeviceNotice G d)
    = (if bool_decide (Controller.DEVICE_NOTICE_CONFIRMED_CLASS G ∈ Controller.body_class d)
       then Controller.body_class d
       else (Controller.body_class d ++ [Controller.DEVICE_NOTICE_CONFIRMED_CLASS G])%list)
  ∧ ∀ k, Nat.iter (S k) (Controller.hideDeviceNotice G) d = Controller.hideDeviceNotice G d.
Proof.
  assert (Controller.hideDeviceNotice G (Controller.hideDeviceNotice G d)
          = Controller.hideDeviceNotice G d) as Again.
  { destruct d.
    unfold Controller.hideDeviceNotice, Controller.set_cookies, Controller.set_body_class.
    cbn. rewrite addClass_again. unfold Controller.assign_cookie.
    destruct (cut "=" (cut ";" (Controller.DEVICE_NOTICE_COOKIE G +:+ "=true")).1)
      as [n [v|]]; by rewrite put_cookie_again. }
  split; [exact Again|]. split; [by destruct d|]. intros k.
  induction k as [|k IH]; [done|].
  rewrite Nat.iter_succ, IH. exact Again.
Qed.



(** ** The test for the cookie of the notice *)

Lemma contains_prefix (p s : string) :
  String.prefix p s = true → contains p s = true.
Proof. intros H. destruct s; cbn [contains]; by rewrite H. Qed.

Lemma split_head (c : ascii) (s : string) :
  ∃ t, s = hd "" (split c s) +:+ t.
Proof.
  induction s as [|a s (t & IH)]; [by exists ""|].
  destruct (split_cons c a s) as (x & xs & Es & ->).
  destruct (Ascii.eqb a c); cbn [hd].
  - by exists (String a s).
  - exists t. rewrite append_cons. f_equal. by rewrite Es in IH.
Qed.

Lemma segment_contains (c : ascii) (p s : string) :
  existsb (contains p)
          (List.filter (fun x => (0 <? String.length x)%nat) (split c s)) = true →
  contains p s = true.
Proof.
  induction s as [|a s IH]; [discriminate|].
  destruct (split_head c s) as (t & Et).
  destruct (split_cons c a s) as (x & xs & Es & ->).
  rewrite Es in Et, IH. cbn [hd] in Et.
  assert (contains p s = true → contains p (String a s) = true) as Up.
  { intros H. rewrite contains_cons, H. by destruct (String.prefix _ _). }
  destruct (Ascii.eqb a c).
  - change (List.filter ?f ("" :: ?l)) with (List.filter f l). auto.
  - cbn [List.filter String.length]. change (0 <? S _)%nat with true.
    cbn [existsb]. intros [H|H]%orb_true_iff.
    + rewrite Et, <- append_cons. by apply contains_append_l.
    + apply Up, IH. cbn [List.filter]. destruct (0 <? String.length x)%nat; [|done].
      cbn [existsb]. by rewrite H, orb_true_r.
Qed.

Lemma contains_cookie_suffix (p name v : string) (jar : list (string * string)) :
  p +:+ name ≠ "" → (p +:+ name, v) ∈ jar →
  contains (name +:+ "=") (Controller.cookie_text jar) = true.
Proof.
  intros N. unfold Controller.cookie_text.
  induction jar as [|[n' v'] jar IH]; intros H; [by apply elem_of_nil in H|].
  assert (∀ rest, contains (name +:+ "=")
            ((if String.eqb (p +:+ name) "" then v else (p +:+ name) +:+ "=" +:+ v)
             +:+ rest) = true) as Here.
  { intros rest. apply String.eqb_neq in N. rewrite N.
    apply contains_append_l. rewrite append_assoc. apply contains_append_r.
    rewrite <- append_assoc. apply contains_prefix, prefix_append. }
  apply elem_of_cons in H as [H|H].
  - injection H as <- <-. cbn [List.map fst snd].
    destruct jar as [|q jar]; cbn [List.map join].
    + specialize (Here ""). by rewrite append_nil_r in Here.
    + apply Here.
  - specialize (IH H). cbn [List.map fst snd].
    destruct jar as [|q jar]; [by apply elem_of_nil in H|].
    cbn [List.map join] in *. by do 2 apply contains_append_r.
Qed.

(** X17: the test of [initDeviceNotice] is a search in the whole text of
    [document.cookie]: for a name without [;], splitting the text at [;] and
    dropping the empty pieces changes nothing, the test holds exactly when
    the name followed by [=] occurs somewhere in the text.  So it also holds
    for a cookie whose name only ends with the name of the notice, whatever
    its value. *)
Theorem cookie_test_is_search (name : string) :
  free_of ";" name = true →
  (∀ text, Controller.cookie_found name text = contains (name +:+ "=") text)
  ∧ (∀ p v jar, p +:+ name ≠ "" → (p +:+ name, v) ∈ jar →
                Controller.cookie_found name (Controller.cookie_text jar) = true).
Proof.
  intros F.
  assert (name +:+ "=" ≠ "") as N by (by destruct name).
  assert (free_of ";" (name +:+ "=") = true) as F' by (by apply free_of_append).
  assert (∀ text, Controller.cookie_found name text = contains (name +:+ "=") text) as E.
  { intros text. unfold Controller.cookie_found.
    destruct (contains (name +:+ "=") text) eqn:C.
    - by apply contains_segment.
    - destruct (existsb _ _) eqn:X; [|done].
      apply segment_contains in X. congruence. }
  split; [exact E|]. intros p v jar Np H. rewrite E.
  by apply (contains_cookie_suffix p name v).
Qed.

Lemma cookie_test_is_search_witness :
  Controller.cookie_found "device-notice"
    (Controller.cookie_text [("lang", "de"); ("old-device-notice", "false")]) = true.
Proof.
  apply (proj2 (cookie_test_is_search "device-notice" eq_refl) "old-" "false").
  - discriminate.
  - apply elem_of_cons. right. apply elem_of_cons. by left.
Defined.

(** ** What the page takes from the manifest *)



